(** * EasyRoutes SMS tool: the notification pipeline

    A shallow embedding of the Python code of the repository's technical
    specifications: the EasyRoutes client's incomplete-stop filter, the
    Twilio client ([send_message], [_format_phone_number]), the data models
    ([RouteStop], [Route]), the command-line orchestrator [process_routes]
    and the web handler ([send_sms], [send_messages_to_stops]).

    Python strings are modelled as [string]; a character is a code point in
    the range 0..255, where the only decimal digits are '0'..'9'.  A dict read
    with [.get] is a record whose fields are options ([None] for a missing
    key); the module [Json] reads the same handler code on payloads in
    which the [contact] of a stop and the [stops] of a route may also hold
    null.  The SMS provider is an oracle over the history of requests; the
    history is the state the pipeline threads, so that "no dispatch" is the
    statement that the history did not grow. *)

From stdpp Require Import base option list strings.
From Stdlib Require Import Ascii String Arith Lia.

Open Scope string_scope.
Open Scope list_scope.

(** ** Python string helpers *)

(** [c.isdigit()] as used by the regular expression class [\d]. *)
Definition is_digit (c : ascii) : bool :=
  (48 <=? nat_of_ascii c)%nat && (nat_of_ascii c <=? 57)%nat.

(** [re.sub(r'\D', '', s)]: drop every character that is not a digit. *)
Fixpoint re_sub_nondigit (s : string) : string :=
  match s with
  | EmptyString => EmptyString
  | String c rest =>
      if is_digit c then String c (re_sub_nondigit rest)
      else re_sub_nondigit rest
  end.

(** [s.startswith(p)]. *)
Definition startswith (p s : string) : bool := String.prefix p s.

(** [s[-n:]] for [n > 0]: the last [n] characters, the whole string when it
    is shorter. *)
Definition slice_last (n : nat) (s : string) : string :=
  String.substring (String.length s - n) n s.

(** Truthiness of an optional string: [None] and [''] are falsy. *)
Definition truthy (s : option string) : bool :=
  match s with
  | None => false
  | Some EmptyString => false
  | Some _ => true
  end.

(** ** clients/twilio_client.py: phone formatting *)

Definition _format_phone_number (phone_number : string) : string :=
  let digits_only := re_sub_nondigit phone_number in
  if (String.length digits_only =? 10)%nat then
    "+1" +:+ digits_only
  else if (String.length digits_only =? 11)%nat
          && startswith "1" digits_only then
    "+" +:+ digits_only
  else
    "+" +:+ digits_only.

(** ** Exceptions, provider and the pipeline monad *)

(** The exceptions the handlers distinguish: [TwilioException] (caught by
    [send_message]) and every other [Exception]. [str e] is [str(e)]. *)
Inductive Exception : Type :=
  | TwilioException (msg : string)
  | OtherException (msg : string).

Definition str (e : Exception) : string :=
  match e with
  | TwilioException msg => msg
  | OtherException msg => msg
  end.

Definition is_TwilioException (e : Exception) : bool :=
  match e with
  | TwilioException _ => true
  | OtherException _ => false
  end.

(** The result of running Python code: a value or a raised exception. *)
Inductive Exc (A : Type) : Type :=
  | Return (a : A)
  | Raise (e : Exception).
Arguments Return {A} a.
Arguments Raise {A} e.

(** One call of [client.messages.create(body=, from_=, to=)]. *)
Record SendRequest : Type := mkSendRequest {
  req_body : string;
  req_from : string;
  req_to : string
}.

(** The provider's answer to a created message: [message.sid] and
    [message.status]. *)
Record Message : Type := mkMessage {
  sid : string;
  msg_status : string
}.

(** The state threaded by the pipeline: the requests handed to the provider
    so far, oldest first. *)
Definition World : Type := list SendRequest.

(** [TwilioSMSClient]: the sender's number and the provider, an oracle that
    answers a request given the requests made before it. *)
Record TwilioSMSClient : Type := mkTwilioSMSClient {
  from_number : string;
  messages_create : World -> SendRequest -> Exc Message
}.

(** State and exception monad of the asynchronous Python code. *)
Definition M (A : Type) : Type := World -> Exc A * World.

#[global] Instance M_ret : MRet M := fun A a w => (Return a, w).

#[global] Instance M_bind : MBind M := fun A B f m w =>
  match m w with
  | (Return a, w') => f a w'
  | (Raise e, w') => (Raise e, w')
  end.

Definition raise {A : Type} (e : Exception) : M A := fun w => (Raise e, w).

(** [try: body except <caught> as e: handler e]: an exception the clause
    does not catch keeps propagating. *)
Definition try_except {A : Type} (body : M A)
    (caught : Exception -> bool) (handler : Exception -> M A) : M A :=
  fun w =>
    match body w with
    | (Return a, w') => (Return a, w')
    | (Raise e, w') => if caught e then handler e w' else (Raise e, w')
    end.

Definition except_Exception (e : Exception) : bool := true.

(** Lifting a call that reads the routing backend and sends nothing. *)
Definition lift {A : Type} (r : Exc A) : M A := fun w => (r, w).

(** [self.client.messages.create(...)]: the request is handed to the
    provider and recorded, whatever the answer. *)
Definition create (client : TwilioSMSClient) (req : SendRequest) : M Message :=
  fun w => (messages_create client w req, w ++ [req]).

(** ** clients/twilio_client.py: send_message *)

(** The request [send_message] hands to the provider: the body, the
    client's own number and the formatted number of the recipient. *)
Definition request_for (self : TwilioSMSClient)
    (to_number message_body : string) : SendRequest :=
  mkSendRequest message_body (from_number self)
    (_format_phone_number to_number).

(** The dict [send_message] returns: with keys success, message_sid, status,
    to on success and success, error, to on failure. *)
Inductive SendResult : Type :=
  | SendSuccess (message_sid : string) (status : string) (to : string)
  | SendFailure (error : string) (to : string).

Definition success (r : SendResult) : bool :=
  match r with
  | SendSuccess _ _ _ => true
  | SendFailure _ _ => false
  end.

Definition send_message (self : TwilioSMSClient)
    (to_number message_body : string) : M SendResult :=
  try_except
    (let formatted_number := _format_phone_number to_number in
     message ← create self
       (mkSendRequest message_body (from_number self) formatted_number);
     mret (SendSuccess (sid message) (msg_status message) formatted_number))
    is_TwilioException
    (fun e => mret (SendFailure (str e) to_number)).

(** ** Data from the routing backend *)

(** The [contact] and [address] dicts of a stop; a missing key is [None]. *)
Record Contact : Type := mkContact {
  name : option string;
  phone : option string
}.

Record Address : Type := mkAddress {
  formatted : option string
}.

(** A stop as the backend's JSON dict, read with [stop.get(...)] and
    [stop['id']]. *)
Module StopDict.
Record t : Type := mk {
  id : string;
  deliveryStatus : option string;
  contact : option Contact;
  address : option Address
}.

(** [stop.get('contact', {}).get('phone')]. *)
Definition get_phone (stop : t) : option string :=
  match contact stop with
  | Some c => phone c
  | None => None
  end.
End StopDict.

(** A route as the backend's JSON dict. *)
Module RouteDict.
Record t : Type := mk {
  id : string;
  name : option string;
  stops : option (list StopDict.t)
}.
End RouteDict.

(** ** models/route.py *)

Module RouteStop.
Record t : Type := mk {
  id : string;
  delivery_status : string;
  contact : Contact;
  address : Address;
  note : string
}.

Definition is_incomplete (self : t) : bool :=
  bool_decide (delivery_status self ≠ "DELIVERED").

(** [self.contact.get("phone", "")]. *)
Definition phone_number (self : t) : string :=
  default "" (phone (contact self)).

(** [self.contact.get("name", "")]. *)
Definition customer_name (self : t) : string :=
  default "" (name (contact self)).
End RouteStop.

Module Route.
Record t : Type := mk {
  id : string;
  name : string;
  stops : list RouteStop.t;
  driver : list (string * string);
  scheduled_for : string
}.

(** [[stop for stop in self.stops if stop.is_incomplete]]. *)
Definition incomplete_stops (self : t) : list RouteStop.t :=
  List.filter RouteStop.is_incomplete (stops self).
End Route.

(** ** clients/easyroutes.py *)

(** The answer of [get_routes]: [routes_response.get("routes", [])]. *)
Record RoutesResponse : Type := mkRoutesResponse {
  routes : option (list RouteDict.t)
}.

(** [EasyRoutesClient]: the requests to the routing backend are oracles;
    they read the backend, may raise, and send no message. *)
Record EasyRoutesClient : Type := mkEasyRoutesClient {
  get_routes : Exc RoutesResponse;
  get_route : string -> Exc RouteDict.t;
  get_route_by_number : string -> Exc (option RouteDict.t)
}.

(** The loop of [get_incomplete_stops]: [incomplete_stops] is the list built
    so far, each kept stop is appended to it. *)
Fixpoint get_incomplete_stops_loop (stops incomplete_stops : list StopDict.t)
    : list StopDict.t :=
  match stops with
  | [] => incomplete_stops
  | stop :: rest =>
      let delivery_status := StopDict.deliveryStatus stop in
      if bool_decide (delivery_status ≠ Some "DELIVERED") then
        get_incomplete_stops_loop rest (incomplete_stops ++ [stop])
      else
        get_incomplete_stops_loop rest incomplete_stops
  end.

Definition get_incomplete_stops (self : EasyRoutesClient) (route_id : string)
    : M (list StopDict.t) :=
  route ← lift (get_route self route_id);
  mret (get_incomplete_stops_loop (default [] (RouteDict.stops route)) []).

(** A stop of the backend's JSON is incomplete when its status, read with
    [.get], differs from "DELIVERED". *)
Definition incomplete (stop : StopDict.t) : Prop :=
  StopDict.deliveryStatus stop ≠ Some "DELIVERED".

#[global] Instance incomplete_dec (stop : StopDict.t) :
  Decision (incomplete stop).
Proof. unfold incomplete. apply _. Defined.

(** ** Web handler: send_messages_to_stops *)

(** One entry of [results['details']]: [error] and [message_sid] are absent
    keys when [None]; [phone] is Python's [None] or the masked number. *)
Module Detail.
Record t : Type := mk {
  stop_id : string;
  status : string;
  error : option string;
  phone : option string;
  message_sid : option string
}.
End Detail.

Record Results : Type := mkResults {
  total_stops : nat;
  messages_sent : nat;
  failures : nat;
  details : list Detail.t
}.

(** [results['details'].append(d); results['messages_sent'] += 1]. *)
Definition record_sent (results : Results) (d : Detail.t) : Results :=
  mkResults (total_stops results) (messages_sent results + 1)
    (failures results) (details results ++ [d]).

(** [results['details'].append(d); results['failures'] += 1]. *)
Definition record_failure (results : Results) (d : Detail.t) : Results :=
  mkResults (total_stops results) (messages_sent results)
    (failures results + 1) (details results ++ [d]).

(** The [try] block of the loop for a stop with the phone number
    [phone_number]: the send, the entry for its result, and the handler that
    turns any exception into a failed entry. *)
Definition try_send (twilio_client : TwilioSMSClient) (stop : StopDict.t)
    (phone_number message : string) (results : Results) : M Results :=
  try_except
    (sms_result ← send_message twilio_client phone_number message;
     if success sms_result then
       match sms_result with
       | SendSuccess message_sid _ _ =>
           mret (record_sent results
             (Detail.mk (StopDict.id stop) "sent" None
                (Some (slice_last 4 phone_number)) (Some message_sid)))
       | SendFailure _ _ => raise (OtherException "'message_sid'")
       end
     else
       match sms_result with
       | SendFailure error _ =>
           mret (record_failure results
             (Detail.mk (StopDict.id stop) "failed" (Some error)
                (Some (slice_last 4 phone_number)) None))
       | SendSuccess _ _ _ => raise (OtherException "'error'")
       end)
    except_Exception
    (fun e =>
       mret (record_failure results
         (Detail.mk (StopDict.id stop) "failed" (Some (str e))
            (Some (slice_last 4 phone_number)) None))).

(** The [for stop in stops] loop, on the [results] dict built so far. *)
Fixpoint send_messages_loop (twilio_client : TwilioSMSClient)
    (stops : list StopDict.t) (message : string) (results : Results)
    : M Results :=
  match stops with
  | [] => mret results
  | stop :: rest =>
      let phone_number := StopDict.get_phone stop in
      if negb (truthy phone_number) then
        send_messages_loop twilio_client rest message
          (record_failure results
             (Detail.mk (StopDict.id stop) "failed"
                (Some "No phone number") None None))
      else
        results' ← try_send twilio_client stop (default "" phone_number)
                     message results;
        send_messages_loop twilio_client rest message results'
  end.

(** [results] after [ns] more sends, [nf] more failures and the entries
    [ds]. *)
Definition extend (results : Results) (ns nf : nat) (ds : list Detail.t)
    : Results :=
  mkResults (total_stops results) (messages_sent results + ns)
    (failures results + nf) (details results ++ ds).

Definition send_messages_to_stops (twilio_client : TwilioSMSClient)
    (stops : list StopDict.t) (message : string) : M Results :=
  send_messages_loop twilio_client stops message
    (mkResults (List.length stops) 0 0 []).

(** ** Web handler: send_sms *)

(** The JSON body of the request, [data.get('route_number')] and
    [data.get('message')], and the session cookie's flag. *)
Record RequestData : Type := mkRequestData {
  route_number : option string;
  message : option string
}.

Record Session : Type := mkSession {
  authenticated : bool
}.

(** What [jsonify] is given: an error, the note for a route with no
    incomplete stop, or the results of the sends. *)
Inductive Body : Type :=
  | ErrorBody (error : string)
  | NoStopsBody (note : string) (results : Results)
  | ResultsBody (results : Results).

Record Response : Type := mkResponse {
  body : Body;
  status_code : nat
}.

(** The decorator of the routes that need a login. *)
Definition require_auth (session : Session) (f : M Response) : M Response :=
  if negb (authenticated session) then
    mret (mkResponse (ErrorBody "Authentication required") 401)
  else f.

Definition send_sms (session : Session) (easyroutes : EasyRoutesClient)
    (twilio : TwilioSMSClient) (data : RequestData) : M Response :=
  require_auth session
    (try_except
       (let route_number := route_number data in
        let message := message data in
        if negb (truthy route_number) || negb (truthy message) then
          mret (mkResponse
                  (ErrorBody "Route number and message are required") 400)
        else
          let route_number := default "" route_number in
          let message := default "" message in
          if (160 <? String.length message)%nat then
            mret (mkResponse
                    (ErrorBody "Message too long (max 160 characters)") 400)
          else
            route ← lift (get_route_by_number easyroutes route_number);
            match route with
            | None =>
                mret (mkResponse
                  (ErrorBody ("Route " +:+ route_number +:+ " not found")) 404)
            | Some route =>
                incomplete_stops ←
                  get_incomplete_stops easyroutes (RouteDict.id route);
                match incomplete_stops with
                | [] =>
                    mret (mkResponse
                      (NoStopsBody "No incomplete stops found for this route"
                         (mkResults 0 0 0 [])) 200)
                | _ =>
                    results ←
                      send_messages_to_stops twilio incomplete_stops message;
                    mret (mkResponse (ResultsBody results) 200)
                end
            end)
       except_Exception
       (fun e => mret (mkResponse (ErrorBody (str e)) 500))).

(** ** Command-line tool: process_routes *)

(** [MessageTemplates]: rendering and the status phrases. *)
Record MessageTemplates : Type := mkMessageTemplates {
  render : string -> string -> string -> string -> Exc string;
  get_status_message : string -> Exc string
}.

Record Config : Type := mkConfig {
  dry_run : bool
}.

(** [for stop in route.incomplete_stops] of [process_routes]; the pause after
    a send takes time and changes nothing else. *)
Fixpoint process_stops (twilio_client : TwilioSMSClient)
    (templates : MessageTemplates) (config : Config)
    (stops : list RouteStop.t) (results : list SendResult)
    : M (list SendResult) :=
  match stops with
  | [] => mret results
  | stop :: rest =>
      if negb (truthy (Some (RouteStop.phone_number stop))) then
        process_stops twilio_client templates config rest results
      else
        status_message ← lift (get_status_message templates
                                 (RouteStop.delivery_status stop));
        message_body ← lift (render templates "default"
                               (RouteStop.customer_name stop)
                               (default "" (formatted (RouteStop.address stop)))
                               status_message);
        if negb (dry_run config) then
          result ← send_message twilio_client
                     (RouteStop.phone_number stop) message_body;
          process_stops twilio_client templates config rest
            (results ++ [result])
        else
          process_stops twilio_client templates config rest results
  end.

(** [for route_data in routes_response.get("routes", [])]; [from_dict] is
    [Route.from_dict], whose code the repository does not show. *)
Fixpoint process_route_list (from_dict : RouteDict.t -> Route.t)
    (twilio_client : TwilioSMSClient) (templates : MessageTemplates)
    (config : Config) (route_list : list RouteDict.t)
    (results : list SendResult) : M (list SendResult) :=
  match route_list with
  | [] => mret results
  | route_data :: rest =>
      let route := from_dict route_data in
      results' ← process_stops twilio_client templates config
                   (Route.incomplete_stops route) results;
      process_route_list from_dict twilio_client templates config rest results'
  end.

Definition process_routes (from_dict : RouteDict.t -> Route.t)
    (easyroutes_client : EasyRoutesClient) (twilio_client : TwilioSMSClient)
    (templates : MessageTemplates) (config : Config) : M (list SendResult) :=
  routes_response ← lift (get_routes easyroutes_client);
  process_route_list from_dict twilio_client templates config
    (default [] (routes routes_response)) [].

(** ** The outcome's phone field as the specification words it *)

(** The last four digits of a phone number: of its digits, the last four. *)
Definition last4_digits (phone_number : string) : string :=
  slice_last 4 (re_sub_nondigit phone_number).

(** ** Sample data *)

(** A provider that rejects one number and accepts every other one. *)
Definition sample_twilio : TwilioSMSClient :=
  mkTwilioSMSClient "+15550000000"
    (fun _ req =>
       if bool_decide (req_to req = "+15551230002")
       then Raise (TwilioException "InvalidNumber")
       else Return (mkMessage "SM0001" "queued")).

(** A provider whose connection drops: no Twilio exception, another one. *)
Definition broken_twilio : TwilioSMSClient :=
  mkTwilioSMSClient "+15550000000"
    (fun _ _ => Raise (OtherException "Connection reset")).

Definition stop_A : StopDict.t :=
  StopDict.mk "stop-A" (Some "OUT_FOR_DELIVERY")
    (Some (mkContact (Some "Ann") None)) None.

Definition stop_B : StopDict.t :=
  StopDict.mk "stop-B" (Some "READY_FOR_DELIVERY")
    (Some (mkContact (Some "Bob") (Some "(555) 123-0001"))) None.

Definition stop_C : StopDict.t :=
  StopDict.mk "stop-C" (Some "ATTEMPTED_DELIVERY")
    (Some (mkContact (Some "Cyd") (Some "(555) 123-0002"))) None.

Definition stop_D : StopDict.t :=
  StopDict.mk "stop-D" None
    (Some (mkContact (Some "Dee") (Some "(555) 123-0003"))) None.

Definition stop_done (i : string) : StopDict.t :=
  StopDict.mk i (Some "DELIVERED")
    (Some (mkContact None (Some "(555) 123-0009"))) None.

(** A stop whose number carries an extension, and one with a short number. *)
Definition stop_ext : StopDict.t :=
  StopDict.mk "stop-E" (Some "UNKNOWN")
    (Some (mkContact (Some "Eve") (Some "(555) 123-4567 x12"))) None.

Definition stop_short : StopDict.t :=
  StopDict.mk "stop-F" (Some "UNKNOWN")
    (Some (mkContact (Some "Fay") (Some "911"))) None.

Definition delivered_route : RouteDict.t :=
  RouteDict.mk "route-1" (Some "RT-1")
    (Some [stop_done "stop-1"; stop_done "stop-2"]).

Definition mixed_route : RouteDict.t :=
  RouteDict.mk "route-2" (Some "RT-2")
    (Some [stop_done "stop-1"; stop_D; stop_B]).

(** A backend that knows the two routes above. *)
Definition sample_easyroutes : EasyRoutesClient :=
  mkEasyRoutesClient
    (Return (mkRoutesResponse (Some [delivered_route; mixed_route])))
    (fun route_id =>
       if bool_decide (route_id = "route-1") then Return delivered_route
       else if bool_decide (route_id = "route-2") then Return mixed_route
       else Raise (OtherException "404 Not Found"))
    (fun route_number =>
       if bool_decide (route_number = "RT-1") then Return (Some delivered_route)
       else if bool_decide (route_number = "RT-2")
       then Return (Some mixed_route)
       else Return None).

Definition sample_templates : MessageTemplates :=
  mkMessageTemplates
    (fun _ customer_name address status_message =>
       Return ("Hello " +:+ customer_name +:+ ", your delivery to " +:+
               address +:+ " is currently " +:+ status_message +:+ "."))
    (fun delivery_status =>
       Return (if bool_decide (delivery_status = "OUT_FOR_DELIVERY")
               then "out for delivery" else "being processed")).

(** A route of the command-line tool: one stop without a phone number
    between two stops that have one. *)
Definition cli_stop (i : string) (p : option string) : RouteStop.t :=
  RouteStop.mk i "OUT_FOR_DELIVERY" (mkContact (Some "Gus") p)
    (mkAddress (Some "1 Main St")) "".

Definition cli_route : Route.t :=
  Route.mk "route-3" "RT-3"
    [cli_stop "stop-1" (Some "(555) 123-0001"); cli_stop "stop-2" None;
     cli_stop "stop-3" (Some "(555) 123-0003")]
    [] "2025-07-24".

Definition lonely_route : Route.t :=
  Route.mk "route-4" "RT-4" [cli_stop "stop-1" None] [] "2025-07-24".

(** ** What a run of the web handler's loop sends and records *)

(** A stop has a usable phone number when [stop.get('contact', {})
    .get('phone')] is truthy. *)
Definition has_phone (stop : StopDict.t) : bool :=
  truthy (StopDict.get_phone stop).

(** The phone numbers of the stops that have one, in the order of the
    stops. *)
Definition phone_numbers (stops : list StopDict.t) : list string :=
  (fun stop => default "" (StopDict.get_phone stop))
    <$> List.filter has_phone stops.

Definition is_sent (d : Detail.t) : bool :=
  bool_decide (Detail.status d = "sent").

Definition is_failed (d : Detail.t) : bool :=
  bool_decide (Detail.status d = "failed").

(** The entries [send_messages_to_stops] can append for a stop: the one for
    a stop without phone number, a sent entry and a failed entry. *)
Inductive entry_of (stop : StopDict.t) : Detail.t -> Prop :=
  | entry_no_phone :
      has_phone stop = false ->
      entry_of stop
        (Detail.mk (StopDict.id stop) "failed" (Some "No phone number")
           None None)
  | entry_sent (p message_sid : string) :
      has_phone stop = true -> StopDict.get_phone stop = Some p ->
      entry_of stop
        (Detail.mk (StopDict.id stop) "sent" None (Some (slice_last 4 p))
           (Some message_sid))
  | entry_failed (p error : string) :
      has_phone stop = true -> StopDict.get_phone stop = Some p ->
      entry_of stop
        (Detail.mk (StopDict.id stop) "failed" (Some error)
           (Some (slice_last 4 p)) None).

(** ** config/settings.py *)

Module Settings.
(** The five credentials [Config.__init__] reads with [os.getenv]: [None]
    when the variable is not set. *)
Record Config : Type := mk {
  easyroutes_client_id : option string;
  easyroutes_client_secret : option string;
  twilio_account_sid : option string;
  twilio_auth_token : option string;
  twilio_from_number : option string
}.

Definition required_vars : list string :=
  ["easyroutes_client_id"; "easyroutes_client_secret";
   "twilio_account_sid"; "twilio_auth_token"; "twilio_from_number"].

(** [getattr(self, var)] for the names of [required_vars]. *)
Definition getattr (self : Config) (var : string) : option string :=
  if bool_decide (var = "easyroutes_client_id") then
    easyroutes_client_id self
  else if bool_decide (var = "easyroutes_client_secret") then
    easyroutes_client_secret self
  else if bool_decide (var = "twilio_account_sid") then
    twilio_account_sid self
  else if bool_decide (var = "twilio_auth_token") then
    twilio_auth_token self
  else if bool_decide (var = "twilio_from_number") then
    twilio_from_number self
  else None.

(** [[var for var in required_vars if not getattr(self, var)]]. *)
Definition missing (self : Config) : list string :=
  List.filter (fun var => negb (truthy (getattr self var))) required_vars.

(** [sep.join(l)]. *)
Fixpoint join (sep : string) (l : list string) : string :=
  match l with
  | [] => ""
  | [x] => x
  | x :: rest => x +:+ sep +:+ join sep rest
  end.

(** The text of a list of names in an f-string: ['a', 'b']. *)
Definition repr_list (l : list string) : string :=
  "[" +:+ join ", " ((fun x => "'" +:+ x +:+ "'") <$> l) +:+ "]".

(** [raise ConfigurationError(...)] when a credential is missing. *)
Definition validate (self : Config) : Exc unit :=
  let missing := missing self in
  match missing with
  | [] => Return tt
  | _ =>
      Raise (OtherException
               ("Missing required environment variables: " +:+
                repr_list missing))
  end.
End Settings.

(** ** Web application: the authentication routes *)

Module AuthRoutes.
(** The session cookie: a key that was never set is [None]. *)
Record FlaskSession : Type := mkFlaskSession {
  session_authenticated : option bool;
  login_time : option string
}.

(** [session.clear()]. *)
Definition cleared : FlaskSession := mkFlaskSession None None.

(** What [session.get('authenticated')] is worth in a condition. *)
Definition current (session : FlaskSession) : Session :=
  mkSession (default false (session_authenticated session)).

Record LoginData : Type := mkLoginData {
  password : option string
}.

Inductive AuthBody : Type :=
  | AuthSuccess
  | AuthError (error : string).

Record AuthResponse : Type := mkAuthResponse {
  auth_body : AuthBody;
  auth_status_code : nat
}.

(** [login]: [admin_password] is [os.getenv('ADMIN_PASSWORD')], [now] the
    text of [datetime.now().isoformat()]. *)
Definition login (admin_password : option string) (now : string)
    (data : LoginData) (session : FlaskSession)
    : AuthResponse * FlaskSession :=
  let password := password data in
  if bool_decide (password = admin_password) then
    (mkAuthResponse AuthSuccess 200,
     mkFlaskSession (Some true) (Some now))
  else
    (mkAuthResponse (AuthError "Invalid password") 401, session).

Definition logout (session : FlaskSession) : AuthResponse * FlaskSession :=
  (mkAuthResponse AuthSuccess 200, cleared).
End AuthRoutes.

(** ** Web application: the results table *)

(** [a || b] on a value that may be missing and a string. *)
Definition js_or (a : option string) (b : string) : string :=
  if truthy a then default "" a else b.

Module ResultsTable.
(** The badge of the Status column: [detail.status === 'sent']. *)
Inductive Badge : Type := Sent | Failed.

Definition status_cell (detail : Detail.t) : Badge :=
  if bool_decide (Detail.status detail = "sent") then Sent else Failed.

(** The Phone column: the masked number behind three stars, or N/A. *)
Definition phone_cell (detail : Detail.t) : string :=
  if truthy (Detail.phone detail)
  then "***" +:+ default "" (Detail.phone detail)
  else "N/A".

(** The Details column: [detail.error || detail.message_sid || 'Success']. *)
Definition details_cell (detail : Detail.t) : string :=
  js_or (Detail.error detail) (js_or (Detail.message_sid detail) "Success").
End ResultsTable.

(** ** Web application: the form (SMSForm.jsx) *)

Module SMSForm.
(** What a request of the form came back with: [fetch] or
    [response.json()] threw, or an answer with [response.ok] and the parsed
    JSON object. *)
Inductive Fetched (D : Type) : Type :=
  | Threw
  | Responded (ok : bool) (data : D).
Arguments Threw {D}.
Arguments Responded {D} ok data.

(** The parsed answers: [data.error], [data.results], [data.preview]; a
    missing key is [None]. *)
Record SendData (R : Type) : Type := mkSendData {
  send_error : option string;
  send_results : option R
}.
Arguments mkSendData {R} _ _.
Arguments send_error {R} _.
Arguments send_results {R} _.

Record PreviewData (P : Type) : Type := mkPreviewData {
  preview_error : option string;
  preview_preview : option P
}.
Arguments mkPreviewData {P} _ _.
Arguments preview_error {P} _.
Arguments preview_preview {P} _.

(** The requests the form makes. *)
Inductive Call : Type :=
  | PreviewCall (route_number : string)
  | SendCall (route_number message : string).

(** The component's state: the seven [useState] cells. *)
Record State (R P : Type) : Type := mk {
  routeNumber : string;
  message : string;
  loading : bool;
  results : option R;
  error : string;
  preview : option P;
  showPreview : bool
}.
Arguments mk {R P} _ _ _ _ _ _ _.
Arguments routeNumber {R P} _.
Arguments message {R P} _.
Arguments loading {R P} _.
Arguments results {R P} _.
Arguments error {R P} _.
Arguments preview {R P} _.
Arguments showPreview {R P} _.

Definition initial {R P : Type} : State R P := mk "" "" false None "" None false.

Definition setLoading {R P : Type} (v : bool) (s : State R P) : State R P :=
  mk (routeNumber s) (message s) v (results s) (error s) (preview s)
    (showPreview s).

Definition setResults {R P : Type} (v : option R) (s : State R P)
    : State R P :=
  mk (routeNumber s) (message s) (loading s) v (error s) (preview s)
    (showPreview s).

Definition setError {R P : Type} (v : string) (s : State R P) : State R P :=
  mk (routeNumber s) (message s) (loading s) (results s) v (preview s)
    (showPreview s).

Definition setPreview {R P : Type} (v : option P) (s : State R P)
    : State R P :=
  mk (routeNumber s) (message s) (loading s) (results s) (error s) v
    (showPreview s).

Definition setShowPreview {R P : Type} (v : bool) (s : State R P)
    : State R P :=
  mk (routeNumber s) (message s) (loading s) (results s) (error s)
    (preview s) v.

(** [handlePreview]: the state once the handler is through, and the requests
    it made; [fetch] answers the request. *)
Definition handlePreview {R P : Type} (fetch : Call -> Fetched (PreviewData P))
    (s : State R P) : State R P * list Call :=
  if negb (truthy (Some (routeNumber s))) then
    (setError "Please enter a route number first" s, [])
  else
    let call := PreviewCall (routeNumber s) in
    let s := setError "" (setLoading true s) in
    let s :=
      match fetch call with
      | Responded true data =>
          setShowPreview true (setPreview (preview_preview data) s)
      | Responded false data =>
          setError (js_or (preview_error data) "Failed to preview route") s
      | Threw => setError "Network error. Please try again." s
      end in
    (setLoading false s, [call]).

(** [handleSubmit], in the same way. *)
Definition handleSubmit {R P : Type} (fetch : Call -> Fetched (SendData R))
    (s : State R P) : State R P * list Call :=
  let call := SendCall (routeNumber s) (message s) in
  let s := setResults None (setError "" (setLoading true s)) in
  let s :=
    match fetch call with
    | Responded true data =>
        setShowPreview false (setResults (send_results data) s)
    | Responded false data =>
        setError (js_or (send_error data) "Failed to send messages") s
    | Threw => setError "Network error. Please try again." s
    end in
  (setLoading false s, [call]).

Definition resetForm {R P : Type} (s : State R P) : State R P :=
  setShowPreview false
    (setPreview None
       (setError "" (setResults None
          (mk "" "" (loading s) (results s) (error s) (preview s)
             (showPreview s))))).

(** [disabled] of the two buttons. *)
Definition preview_disabled {R P : Type} (s : State R P) : bool :=
  loading s || negb (truthy (Some (routeNumber s))).

Definition submit_disabled {R P : Type} (s : State R P) : bool :=
  loading s || negb (truthy (Some (routeNumber s)))
  || negb (truthy (Some (message s))).
End SMSForm.

(** ** What a run of the command-line tool sends *)

Definition cli_has_phone (stop : RouteStop.t) : bool :=
  truthy (Some (RouteStop.phone_number stop)).

(** The phone numbers of the stops the command-line tool writes to, in the
    order of the stops. *)
Definition cli_phone_numbers (stops : list RouteStop.t) : list string :=
  RouteStop.phone_number <$> List.filter cli_has_phone stops.

(** The [to] key of the dict [send_message] returns. *)
Definition result_to (r : SendResult) : string :=
  match r with
  | SendSuccess _ _ to => to
  | SendFailure _ to => to
  end.

(** ** The payload of the routing backend with JSON null *)

(** A key of a JSON object: missing, holding null, or holding a value.
    [d.get(key, default)] gives the default for a missing key only. *)
Inductive Field (A : Type) : Type :=
  | Missing
  | Null
  | Present (a : A).
Arguments Missing {A}.
Arguments Null {A}.
Arguments Present {A} a.

(** The records above read a payload in which a key that is there holds a
    value of its kind. The definitions of this module are the same code on a
    payload in which [contact] and [stops] may also hold null; the functions
    keep the names they have in the source. *)
Module Json.
Record Stop : Type := mkStop {
  id : string;
  deliveryStatus : option string;
  contact : Field Contact;
  address : option Address
}.

Record Route : Type := mkRoute {
  route_id : string;
  route_name : option string;
  stops : Field (list Stop)
}.

(** The stop with a null contact read as a missing one, and back. *)
Definition as_dict (stop : Stop) : StopDict.t :=
  StopDict.mk (id stop) (deliveryStatus stop)
    (match contact stop with Present c => Some c | _ => None end)
    (address stop).

Definition of_dict (stop : StopDict.t) : Stop :=
  mkStop (StopDict.id stop) (StopDict.deliveryStatus stop)
    (match StopDict.contact stop with Some c => Present c | None => Missing end)
    (StopDict.address stop).

Definition of_route (route : RouteDict.t) : Route :=
  mkRoute (RouteDict.id route) (RouteDict.name route)
    (match RouteDict.stops route with
     | Some l => Present (of_dict <$> l)
     | None => Missing
     end).

Definition contact_is_null (stop : Stop) : bool :=
  match contact stop with Null => true | _ => false end.

(** [stop.get('contact', {}).get('phone')]: [{}] for a missing contact; on
    a null contact [.get] is called on [None]. *)
Definition get_phone (stop : Stop) : Exc (option string) :=
  match contact stop with
  | Missing => Return None
  | Null =>
      Raise (OtherException "'NoneType' object has no attribute 'get'")
  | Present c => Return (phone c)
  end.

(** The [for stop in stops] loop of [send_messages_to_stops]: the phone
    number is read before the [try]; the [try] block reads [stop['id']]
    only. *)
Fixpoint send_messages_loop (twilio_client : TwilioSMSClient)
    (stops : list Stop) (message : string) (results : Results)
    : M Results :=
  match stops with
  | [] => mret results
  | stop :: rest =>
      phone_number ← lift (get_phone stop);
      if negb (truthy phone_number) then
        send_messages_loop twilio_client rest message
          (record_failure results
             (Detail.mk (id stop) "failed"
                (Some "No phone number") None None))
      else
        results' ← try_send twilio_client (as_dict stop)
                     (default "" phone_number) message results;
        send_messages_loop twilio_client rest message results'
  end.

Definition send_messages_to_stops (twilio_client : TwilioSMSClient)
    (stops : list Stop) (message : string) : M Results :=
  send_messages_loop twilio_client stops message
    (mkResults (List.length stops) 0 0 []).

(** The routing backend answering with such payloads. *)
Record EasyRoutesClient : Type := mkEasyRoutesClient {
  get_route : string -> Exc Route;
  get_route_by_number : string -> Exc (option Route)
}.

(** The loop of [get_incomplete_stops], as above. *)
Fixpoint get_incomplete_stops_loop (stops incomplete_stops : list Stop)
    : list Stop :=
  match stops with
  | [] => incomplete_stops
  | stop :: rest =>
      let delivery_status := deliveryStatus stop in
      if bool_decide (delivery_status ≠ Some "DELIVERED") then
        get_incomplete_stops_loop rest (incomplete_stops ++ [stop])
      else
        get_incomplete_stops_loop rest incomplete_stops
  end.

(** [route.get("stops", [])]: iterating over null raises. *)
Definition get_incomplete_stops (self : EasyRoutesClient) (route_id : string)
    : M (list Stop) :=
  route ← lift (get_route self route_id);
  match stops route with
  | Missing => mret (get_incomplete_stops_loop [] [])
  | Null => raise (OtherException "'NoneType' object is not iterable")
  | Present l => mret (get_incomplete_stops_loop l [])
  end.

Definition send_sms (session : Session) (easyroutes : EasyRoutesClient)
    (twilio : TwilioSMSClient) (data : RequestData) : M Response :=
  require_auth session
    (try_except
       (let route_number := route_number data in
        let message := message data in
        if negb (truthy route_number) || negb (truthy message) then
          mret (mkResponse
                  (ErrorBody "Route number and message are required") 400)
        else
          let route_number := default "" route_number in
          let message := default "" message in
          if (160 <? String.length message)%nat then
            mret (mkResponse
                    (ErrorBody "Message too long (max 160 characters)") 400)
          else
            route ← lift (get_route_by_number easyroutes route_number);
            match route with
            | None =>
                mret (mkResponse
                  (ErrorBody ("Route " +:+ route_number +:+ " not found")) 404)
            | Some route =>
                incomplete_stops ←
                  get_incomplete_stops easyroutes (route_id route);
                match incomplete_stops with
                | [] =>
                    mret (mkResponse
                      (NoStopsBody "No incomplete stops found for this route"
                         (mkResults 0 0 0 [])) 200)
                | _ =>
                    results ←
                      send_messages_to_stops twilio incomplete_stops message;
                    mret (mkResponse (ResultsBody results) 200)
                end
            end)
       except_Exception
       (fun e => mret (mkResponse (ErrorBody (str e)) 500))).

(** The stops the loop of [send_messages_to_stops] gets to: those before
    the first stop with a null contact. *)
Fixpoint reached (stops : list Stop) : list Stop :=
  match stops with
  | [] => []
  | stop :: rest =>
      if contact_is_null stop then [] else stop :: reached rest
  end.

Definition incomplete (stop : Stop) : Prop :=
  deliveryStatus stop ≠ Some "DELIVERED".
End Json.

#[global] Instance json_incomplete_dec (stop : Json.Stop) :
  Decision (Json.incomplete stop).
Proof. unfold Json.incomplete. apply _. Defined.

(** A backend of payloads without null as a backend of this module. *)
Definition json_of_client (client : EasyRoutesClient)
    : Json.EasyRoutesClient :=
  Json.mkEasyRoutesClient
    (fun route_id =>
       match get_route client route_id with
       | Return route => Return (Json.of_route route)
       | Raise e => Raise e
       end)
    (fun route_number =>
       match get_route_by_number client route_number with
       | Return route => Return (Json.of_route <$> route)
       | Raise e => Raise e
       end).

(** Sample payloads with null. *)
Definition stop_null : Json.Stop :=
  Json.mkStop "stop-N" (Some "OUT_FOR_DELIVERY") Null None.

Definition null_contact_route : Json.Route :=
  Json.mkRoute "route-6" (Some "RT-6")
    (Present [Json.of_dict stop_B; stop_null; Json.of_dict stop_D]).

Definition null_stops_route : Json.Route :=
  Json.mkRoute "route-7" (Some "RT-7") Null.

Definition json_easyroutes : Json.EasyRoutesClient :=
  Json.mkEasyRoutesClient
    (fun route_id =>
       if bool_decide (route_id = "route-6") then Return null_contact_route
       else if bool_decide (route_id = "route-7") then Return null_stops_route
       else Raise (OtherException "404 Not Found"))
    (fun route_number =>
       if bool_decide (route_number = "RT-6")
       then Return (Some null_contact_route)
       else if bool_decide (route_number = "RT-7")
       then Return (Some null_stops_route)
       else Return None).

(** * Properties *)

(** ** Phone normalization *)

Lemma re_sub_nondigit_filter (s : string) :
  list_ascii_of_string (re_sub_nondigit s)
  = List.filter is_digit (list_ascii_of_string s).
Proof.
  induction s as [|c s IH]; simpl; [reflexivity|].
  destruct (is_digit c); simpl; by rewrite IH.
Qed.

Lemma re_sub_nondigit_idem (s : string) :
  re_sub_nondigit (re_sub_nondigit s) = re_sub_nondigit s.
Proof.
  induction s as [|c s IH]; simpl; [reflexivity|].
  destruct (is_digit c) eqn:Hc; simpl; [rewrite Hc, IH|]; done.
Qed.

Lemma re_sub_nondigit_plus (s : string) :
  re_sub_nondigit (String "+" s) = re_sub_nondigit s.
Proof. reflexivity. Qed.

Lemma re_sub_nondigit_one (s : string) :
  re_sub_nondigit (String "1" s) = String "1" (re_sub_nondigit s).
Proof. reflexivity. Qed.

Lemma format_ten : _format_phone_number "(555) 123-4567" = "+15551234567".
Proof. reflexivity. Qed.

Lemma format_eleven : _format_phone_number "1-555-123-4567" = "+15551234567".
Proof. reflexivity. Qed.

Lemma format_other : _format_phone_number "+44 20 7946 0958" = "+442079460958".
Proof. reflexivity. Qed.

(** C6: normalization keeps exactly the digits of its input, in order; with
    ten digits left the result is "+1" followed by them, with eleven digits
    left that start with "1" it is "+" followed by them, and in every other
    case it is "+" followed by the digits as they are. *)
Theorem C6_format_phone_number (phone_number : string) :
  let digits_only := re_sub_nondigit phone_number in
  list_ascii_of_string digits_only
    = List.filter is_digit (list_ascii_of_string phone_number) ∧
  (String.length digits_only = 10 →
     _format_phone_number phone_number = "+1" +:+ digits_only) ∧
  (String.length digits_only = 11 → startswith "1" digits_only = true →
     _format_phone_number phone_number = "+" +:+ digits_only) ∧
  (String.length digits_only ≠ 10 →
     _format_phone_number phone_number = "+" +:+ digits_only).
Proof.
  intros d. split; [apply re_sub_nondigit_filter|].
  unfold _format_phone_number. fold d.
  repeat split.
  - intros ->. reflexivity.
  - intros -> ->. reflexivity.
  - intros Hn. apply Nat.eqb_neq in Hn. rewrite Hn.
    by destruct (_ && _).
Qed.

Lemma C6_format_phone_number_witness :
  _format_phone_number "(555) 123-4567" = "+1" +:+ "5551234567" ∧
  _format_phone_number "1 (555) 123-4567" = "+" +:+ "15551234567" ∧
  _format_phone_number "+44 20 7946 0958" = "+" +:+ "442079460958".
Proof.
  split; [|split].
  - destruct (C6_format_phone_number "(555) 123-4567") as (_ & H & _).
    apply H. reflexivity.
  - destruct (C6_format_phone_number "1 (555) 123-4567") as (_ & _ & H & _).
    apply H; reflexivity.
  - destruct (C6_format_phone_number "+44 20 7946 0958") as (_ & _ & _ & H).
    apply H. simpl. lia.
Defined.

(** C7: normalizing a normalized number changes nothing, for every input;
    "+15551234567" is its own normal form. *)
Theorem C7_format_phone_number_idempotent :
  (∀ phone_number : string,
     _format_phone_number (_format_phone_number phone_number)
     = _format_phone_number phone_number) ∧
  _format_phone_number "+15551234567" = "+15551234567".
Proof.
  split; [|reflexivity].
  intros s. unfold _format_phone_number at 2 3.
  set (d := re_sub_nondigit s).
  assert (Hd : re_sub_nondigit d = d) by apply re_sub_nondigit_idem.
  clearbody d.
  destruct (String.length d =? 10)%nat eqn:H10.
  - apply Nat.eqb_eq in H10.
    change ("+1" +:+ d) with (String "+" (String "1" d)).
    unfold _format_phone_number.
    rewrite re_sub_nondigit_plus, re_sub_nondigit_one, Hd.
    change (String.length (String "1" d)) with (S (String.length d)).
    rewrite H10. cbn. by destruct (String.prefix _ _).
  - assert (_format_phone_number ("+" +:+ d) = "+" +:+ d) as Hplus.
    { change ("+" +:+ d) with (String "+" d).
      unfold _format_phone_number.
      rewrite re_sub_nondigit_plus, Hd, H10.
      by destruct (_ && _). }
    by destruct (_ && _).
Qed.

(** ** The incomplete-stop filter *)

Lemma get_incomplete_stops_loop_filter (stops acc : list StopDict.t) :
  get_incomplete_stops_loop stops acc = acc ++ filter incomplete stops.
Proof.
  revert acc. induction stops as [|stop rest IH]; intros acc; simpl.
  - by rewrite app_nil_r.
  - rewrite filter_cons. fold (incomplete stop).
    case_bool_decide as Hs.
    + rewrite decide_True by done. rewrite IH, <- app_assoc. reflexivity.
    + rewrite decide_False by done. apply IH.
Qed.

Lemma get_incomplete_stops_loop_app (pre post : list StopDict.t) :
  get_incomplete_stops_loop (pre ++ post) []
  = get_incomplete_stops_loop pre [] ++ get_incomplete_stops_loop post [].
Proof.
  rewrite !get_incomplete_stops_loop_filter. simpl. apply filter_app.
Qed.

Lemma List_filter_sublist {A : Type} (f : A → bool) (l : list A) :
  List.filter f l `sublist_of` l.
Proof.
  induction l as [|x l IH]; simpl; [constructor|].
  destruct (f x); by constructor.
Qed.

(** C1: the filter returns the stops of the route whose status is not
    DELIVERED, all of them and only them, in the route's order; so does the
    [incomplete_stops] property of the [Route] model. *)
Theorem C1_incomplete_stops_exact
    (self : EasyRoutesClient) (route_id : string) (route : RouteDict.t)
    (w : World) (r : Route.t) :
  get_route self route_id = Return route →
  let stops := default [] (RouteDict.stops route) in
  (∃ result : list StopDict.t,
      get_incomplete_stops self route_id w = (Return result, w) ∧
      result = filter incomplete stops ∧
      (∀ stop, stop ∈ result ↔
         stop ∈ stops ∧ StopDict.deliveryStatus stop ≠ Some "DELIVERED") ∧
      result `sublist_of` stops) ∧
  (∀ stop, stop ∈ Route.incomplete_stops r ↔
     stop ∈ Route.stops r ∧ RouteStop.delivery_status stop ≠ "DELIVERED") ∧
  Route.incomplete_stops r `sublist_of` Route.stops r.
Proof.
  intros Hget stops. split; [|split].
  - exists (filter incomplete stops). split; [|split; [done|split]].
    + unfold get_incomplete_stops, mbind, M_bind, lift, mret, M_ret.
      rewrite Hget. fold stops.
      by rewrite get_incomplete_stops_loop_filter.
    + intros stop. rewrite list_elem_of_filter. unfold incomplete. tauto.
    + apply sublist_filter.
  - intros stop. unfold Route.incomplete_stops.
    rewrite !list_elem_of_In, filter_In. unfold RouteStop.is_incomplete.
    rewrite bool_decide_eq_true. tauto.
  - apply List_filter_sublist.
Qed.

Lemma C1_incomplete_stops_exact_witness :
  get_incomplete_stops sample_easyroutes "route-2" []
    = (Return [stop_D; stop_B], []) ∧
  Route.incomplete_stops cli_route `sublist_of` Route.stops cli_route.
Proof.
  destruct (C1_incomplete_stops_exact sample_easyroutes "route-2" mixed_route
              [] cli_route eq_refl)
    as [(result & Hrun & Hresult & _) [_ Hsub]].
  split; [|exact Hsub].
  rewrite Hrun, Hresult. reflexivity.
Defined.

(** C10: a stop whose dict has no deliveryStatus key is kept by the filter,
    at its place in the route, as the same stop with status UNKNOWN is. *)
Theorem C10_missing_status_is_incomplete
    (self : EasyRoutesClient) (route_id : string) (route : RouteDict.t)
    (w : World) (pre post : list StopDict.t) (stop : StopDict.t) :
  get_route self route_id = Return route →
  RouteDict.stops route = Some (pre ++ stop :: post) →
  StopDict.deliveryStatus stop = None →
  let unknown := StopDict.mk (StopDict.id stop) (Some "UNKNOWN")
                   (StopDict.contact stop) (StopDict.address stop) in
  get_incomplete_stops self route_id w
    = (Return (get_incomplete_stops_loop pre [] ++
               stop :: get_incomplete_stops_loop post []), w) ∧
  get_incomplete_stops_loop (pre ++ unknown :: post) []
    = get_incomplete_stops_loop pre [] ++
      unknown :: get_incomplete_stops_loop post [].
Proof.
  intros Hget Hstops Hnone unknown. split.
  - unfold get_incomplete_stops, mbind, M_bind, lift, mret, M_ret.
    rewrite Hget, Hstops. simpl.
    rewrite get_incomplete_stops_loop_app. simpl. rewrite Hnone. simpl.
    by rewrite (get_incomplete_stops_loop_filter post [stop]),
      (get_incomplete_stops_loop_filter post []).
  - rewrite get_incomplete_stops_loop_app. simpl.
    by rewrite (get_incomplete_stops_loop_filter post [unknown]),
      (get_incomplete_stops_loop_filter post []).
Qed.

Lemma C10_missing_status_is_incomplete_witness :
  get_incomplete_stops sample_easyroutes "route-2" []
    = (Return ([] ++ stop_D :: [stop_B]), []) ∧
  get_incomplete_stops_loop
    ([stop_done "stop-1"] ++
     StopDict.mk "stop-D" (Some "UNKNOWN") (StopDict.contact stop_D) None
       :: [stop_B]) []
  = [] ++ StopDict.mk "stop-D" (Some "UNKNOWN") (StopDict.contact stop_D) None
       :: [stop_B].
Proof.
  apply (C10_missing_status_is_incomplete sample_easyroutes "route-2"
           mixed_route [] [stop_done "stop-1"] [stop_B] stop_D);
    reflexivity.
Defined.

(** ** The sender and the loop over the stops *)

Section Dispatch.
Variable twilio_client : TwilioSMSClient.
Variable message : string.

Lemma send_message_created (phone_number : string) (w : World) (m : Message) :
  messages_create twilio_client w
    (request_for twilio_client phone_number message) = Return m →
  send_message twilio_client phone_number message w
  = (Return (SendSuccess (sid m) (msg_status m)
               (_format_phone_number phone_number)),
     w ++ [request_for twilio_client phone_number message]).
Proof.
  intros Hc. unfold send_message, try_except, mbind, M_bind, create.
  unfold request_for in Hc. by rewrite Hc.
Qed.

Lemma send_message_raised (phone_number : string) (w : World)
    (e : Exception) :
  messages_create twilio_client w
    (request_for twilio_client phone_number message) = Raise e →
  send_message twilio_client phone_number message w
  = (if is_TwilioException e
     then Return (SendFailure (str e) phone_number)
     else Raise e,
     w ++ [request_for twilio_client phone_number message]).
Proof.
  intros Hc. unfold send_message, try_except, mbind, M_bind, create.
  unfold request_for in Hc. rewrite Hc. by destruct e.
Qed.

Lemma try_send_created (stop : StopDict.t) (phone_number : string)
    (results : Results) (w : World) (m : Message) :
  messages_create twilio_client w
    (request_for twilio_client phone_number message) = Return m →
  try_send twilio_client stop phone_number message results w
  = (Return (record_sent results
               (Detail.mk (StopDict.id stop) "sent" None
                  (Some (slice_last 4 phone_number)) (Some (sid m)))),
     w ++ [request_for twilio_client phone_number message]).
Proof.
  intros Hc. unfold try_send, try_except, mbind, M_bind.
  by rewrite (send_message_created _ _ _ Hc).
Qed.

Lemma try_send_raised (stop : StopDict.t) (phone_number : string)
    (results : Results) (w : World) (e : Exception) :
  messages_create twilio_client w
    (request_for twilio_client phone_number message) = Raise e →
  try_send twilio_client stop phone_number message results w
  = (Return (record_failure results
               (Detail.mk (StopDict.id stop) "failed" (Some (str e))
                  (Some (slice_last 4 phone_number)) None)),
     w ++ [request_for twilio_client phone_number message]).
Proof.
  intros Hc. unfold try_send, try_except, mbind, M_bind.
  rewrite (send_message_raised _ _ _ Hc). by destruct e.
Qed.

Lemma extend_record_sent (results : Results) (d : Detail.t)
    (ns nf : nat) (ds : list Detail.t) :
  extend (record_sent results d) ns nf ds
  = extend results (S ns) nf (d :: ds).
Proof.
  unfold extend, record_sent. simpl. f_equal; [lia|].
  by rewrite <- app_assoc.
Qed.

Lemma extend_record_failure (results : Results) (d : Detail.t)
    (ns nf : nat) (ds : list Detail.t) :
  extend (record_failure results d) ns nf ds
  = extend results ns (S nf) (d :: ds).
Proof.
  unfold extend, record_failure. simpl. f_equal; [lia|].
  by rewrite <- app_assoc.
Qed.

(** What a run of the loop adds to [results] does not depend on
    [results]: one entry per stop, in the order of the stops. *)
Lemma send_messages_loop_spec (stops : list StopDict.t) (w : World) :
  ∃ (ds : list Detail.t) (ns nf : nat) (wf : World),
    List.length ds = List.length stops ∧
    Detail.stop_id <$> ds = StopDict.id <$> stops ∧
    ns + nf = List.length stops ∧
    ∀ results,
      send_messages_loop twilio_client stops message results w
      = (Return (extend results ns nf ds), wf).
Proof.
  revert w. induction stops as [|stop rest IH]; intros w.
  - exists [], 0, 0, w. repeat split. intros results.
    unfold extend. simpl. rewrite !Nat.add_0_r, app_nil_r.
    by destruct results.
  - simpl. destruct (truthy (StopDict.get_phone stop)) eqn:Hp; simpl.
    + set (p := default "" (StopDict.get_phone stop)).
      destruct (IH (w ++ [request_for twilio_client p message]))
        as (ds & ns & nf & wf & Hl & Hi & Hn & Hrun).
      destruct (messages_create twilio_client w
                  (request_for twilio_client p message)) as [m|e] eqn:Hc.
      * exists (Detail.mk (StopDict.id stop) "sent" None
                  (Some (slice_last 4 p)) (Some (sid m)) :: ds),
          (S ns), nf, wf.
        split_and!; [simpl; lia|by rewrite fmap_cons, Hi|simpl; lia|].
        intros results. unfold mbind, M_bind.
        rewrite (try_send_created _ _ _ _ _ Hc), Hrun.
        by rewrite extend_record_sent.
      * exists (Detail.mk (StopDict.id stop) "failed" (Some (str e))
                  (Some (slice_last 4 p)) None :: ds),
          ns, (S nf), wf.
        split_and!; [simpl; lia|by rewrite fmap_cons, Hi|simpl; lia|].
        intros results. unfold mbind, M_bind.
        rewrite (try_send_raised _ _ _ _ _ Hc), Hrun.
        by rewrite extend_record_failure.
    + destruct (IH w) as (ds & ns & nf & wf & Hl & Hi & Hn & Hrun).
      exists (Detail.mk (StopDict.id stop) "failed"
                (Some "No phone number") None None :: ds),
        ns, (S nf), wf.
      split_and!; [simpl; lia|by rewrite fmap_cons, Hi|simpl; lia|].
      intros results.
      by rewrite Hrun, extend_record_failure.
Qed.

Lemma send_messages_loop_app (pre post : list StopDict.t)
    (results : Results) (w : World) :
  send_messages_loop twilio_client (pre ++ post) message results w
  = (send_messages_loop twilio_client pre message results
     ≫= send_messages_loop twilio_client post message) w.
Proof.
  revert results w. induction pre as [|stop rest IH]; intros results w.
  - reflexivity.
  - simpl. destruct (negb _).
    + apply IH.
    + unfold mbind, M_bind in *.
      destruct (try_send _ _ _ _ _ w) as [[r|e] w']; [apply IH|done].
Qed.
End Dispatch.

(** ** Stops without a phone number *)

Section CommandLine.
Variable twilio_client : TwilioSMSClient.
Variable templates : MessageTemplates.
Variable config : Config.

Lemma process_stops_app (pre post : list RouteStop.t)
    (results : list SendResult) (w : World) :
  process_stops twilio_client templates config (pre ++ post) results w
  = (process_stops twilio_client templates config pre results
     ≫= process_stops twilio_client templates config post) w.
Proof.
  revert results w. induction pre as [|stop rest IH]; intros results w.
  - reflexivity.
  - simpl. destruct (negb _); [apply IH|].
    unfold mbind, M_bind, lift in *.
    destruct (get_status_message _ _) as [status_message|e]; [|done].
    destruct (render _ _ _ _ _) as [message_body|e]; [|done].
    destruct (negb (dry_run config)); [|apply IH].
    destruct (send_message _ _ _ w) as [[result|e] w']; [apply IH|done].
Qed.

(** A stop without a phone number is passed over: the run is the run
    without it. *)
Lemma process_stops_skip (pre post : list RouteStop.t) (stop : RouteStop.t)
    (results : list SendResult) (w : World) :
  RouteStop.phone_number stop = "" →
  process_stops twilio_client templates config (pre ++ stop :: post) results w
  = process_stops twilio_client templates config (pre ++ post) results w.
Proof.
  intros Hp. rewrite !process_stops_app. unfold mbind, M_bind.
  destruct (process_stops _ _ _ pre results w) as [[r|e] w']; [|done].
  simpl. by rewrite Hp.
Qed.
End CommandLine.

(** The command-line tool run on a route whose only stop is incomplete and
    has no phone number: no request and no recorded outcome, so no failed
    outcome for that stop. *)
Lemma C4_counterexample :
  cli_stop "stop-1" None ∈ Route.incomplete_stops lonely_route ∧
  RouteStop.phone_number (cli_stop "stop-1" None) = "" ∧
  ∃ results : list SendResult,
    process_stops sample_twilio sample_templates (mkConfig false)
      (Route.incomplete_stops lonely_route) [] []
    = (Return results, []) ∧
    ¬ ∃ outcome, outcome ∈ results ∧ success outcome = false.
Proof.
  split; [left|split; [reflexivity|]].
  exists []. split; [reflexivity|].
  intros (outcome & Hin & _). by apply elem_of_nil in Hin.
Qed.

(** ** The web handler's front door *)

Lemma get_incomplete_stops_loop_delivered (stops : list StopDict.t) :
  Forall (λ stop, StopDict.deliveryStatus stop = Some "DELIVERED") stops →
  get_incomplete_stops_loop stops [] = [].
Proof.
  intros Hall. rewrite get_incomplete_stops_loop_filter. simpl.
  induction Hall as [|stop rest Hs _ IH]; [done|].
  rewrite filter_cons, decide_False; [done|].
  unfold incomplete. rewrite Hs. intros Hne. by apply Hne.
Qed.

(** C5, as the code has it: for a route all of whose stops are DELIVERED the
    handler answers 200 with the note that no incomplete stop was found and
    the results total_stops = 0, messages_sent = 0, failures = 0 and no
    entry, and makes no request to the provider; total_stops counts the
    stops to notify, not the stops of the route. *)
Theorem C5_no_incomplete_stops
    (easyroutes : EasyRoutesClient) (twilio : TwilioSMSClient)
    (number text : string) (route fetched : RouteDict.t) (w : World) :
  number ≠ "" → text ≠ "" → (String.length text ≤ 160)%nat →
  get_route_by_number easyroutes number = Return (Some route) →
  get_route easyroutes (RouteDict.id route) = Return fetched →
  Forall (λ stop, StopDict.deliveryStatus stop = Some "DELIVERED")
    (default [] (RouteDict.stops fetched)) →
  send_sms (mkSession true) easyroutes twilio
    (mkRequestData (Some number) (Some text)) w
  = (Return (mkResponse
       (NoStopsBody "No incomplete stops found for this route"
          (mkResults 0 0 0 [])) 200), w).
Proof.
  intros Hn Ht Hlen Hroute Hfetch Hall.
  unfold send_sms, require_auth, try_except. simpl.
  destruct number as [|c number']; [done|].
  destruct text as [|c' text']; [done|].
  cbn [truthy negb orb].
  replace (160 <? String.length (String c' text'))%nat with false
    by (symmetry; apply Nat.ltb_ge; exact Hlen).
  unfold mbind, M_bind, lift, get_incomplete_stops.
  rewrite Hroute. unfold mbind, M_bind, lift. rewrite Hfetch.
  unfold mret, M_ret.
  by rewrite (get_incomplete_stops_loop_delivered _ Hall).
Qed.

Lemma C5_no_incomplete_stops_witness :
  send_sms (mkSession true) sample_easyroutes sample_twilio
    (mkRequestData (Some "RT-1") (Some "Running late")) []
  = (Return (mkResponse
       (NoStopsBody "No incomplete stops found for this route"
          (mkResults 0 0 0 [])) 200), []).
Proof.
  apply (C5_no_incomplete_stops sample_easyroutes sample_twilio
           "RT-1" "Running late" delivered_route delivered_route []);
    try (reflexivity || discriminate).
  - simpl. lia.
  - repeat constructor.
Defined.

(** A route with two stops, both DELIVERED: the results say total_stops = 0,
    not 2. *)
Lemma C5_counterexample :
  RouteDict.stops delivered_route
    = Some [stop_done "stop-1"; stop_done "stop-2"] ∧
  ∃ (note : string) (results : Results),
    send_sms (mkSession true) sample_easyroutes sample_twilio
      (mkRequestData (Some "RT-1") (Some "Running late")) []
    = (Return (mkResponse (NoStopsBody note results) 200), []) ∧
    total_stops results
      ≠ List.length (default [] (RouteDict.stops delivered_route)).
Proof.
  split; [reflexivity|].
  exists "No incomplete stops found for this route", (mkResults 0 0 0 []).
  split; [reflexivity|]. simpl. lia.
Qed.

(** C8: a request whose message is longer than 160 characters is answered
    with an error and no request reaches the provider; for a logged-in
    caller who named a route the error is 400, message too long. *)
Theorem C8_long_message_rejected
    (session : Session) (easyroutes : EasyRoutesClient)
    (twilio : TwilioSMSClient) (data : RequestData) (text : string)
    (w : World) :
  message data = Some text → (160 < String.length text)%nat →
  ∃ (error : string) (code : nat),
    send_sms session easyroutes twilio data w
    = (Return (mkResponse (ErrorBody error) code), w) ∧
    (400 ≤ code)%nat ∧
    (authenticated session = true → truthy (route_number data) = true →
     error = "Message too long (max 160 characters)" ∧ code = 400).
Proof.
  intros Hm Hlen. unfold send_sms, require_auth, try_except.
  destruct text as [|c text']; [simpl in Hlen; lia|].
  destruct (authenticated session); cbn [negb].
  - rewrite Hm.
    apply Nat.ltb_lt in Hlen.
    destruct (truthy (route_number data)) eqn:Hr;
      cbn [truthy negb orb default from_option id].
    + rewrite Hlen.
      eexists _, _. split; [reflexivity|]. split; [lia|done].
    + eexists _, _. split; [reflexivity|]. split; [lia|done].
  - eexists _, _. split; [reflexivity|]. split; [lia|done].
Qed.

Lemma C8_long_message_rejected_witness :
  ∃ (error : string) (code : nat),
    send_sms (mkSession true) sample_easyroutes sample_twilio
      (mkRequestData (Some "RT-2")
         (Some ("Your delivery is running late today because of heavy " +:+
                "traffic on the motorway; the driver will reach you in " +:+
                "the afternoon, between two and five o'clock. Please keep " +:+
                "your phone at hand."))) []
    = (Return (mkResponse (ErrorBody error) code), []) ∧
    (400 ≤ code)%nat ∧
    (authenticated (mkSession true) = true →
     truthy (Some "RT-2") = true →
     error = "Message too long (max 160 characters)" ∧ code = 400).
Proof.
  eapply (C8_long_message_rejected (mkSession true) sample_easyroutes
            sample_twilio).
  - reflexivity.
  - vm_compute. lia.
Defined.

(** An exception that is not the provider's own escapes [send_message];
    the web handler's loop turns it into a failed entry, the command-line
    tool lets it through. *)
Lemma other_exception_is_caught_by_the_loop :
  send_messages_to_stops broken_twilio [stop_B] "Running late" []
  = (Return (mkResults 1 0 1
       [Detail.mk "stop-B" "failed" (Some "Connection reset")
          (Some "0001") None]),
     [mkSendRequest "Running late" "+15550000000" "+15551230001"]).
Proof. reflexivity. Qed.

Lemma other_exception_ends_process_routes (from_dict : RouteDict.t → Route.t) :
  from_dict delivered_route = cli_route →
  fst (process_routes from_dict sample_easyroutes broken_twilio
         sample_templates (mkConfig false) [])
  = Raise (OtherException "Connection reset").
Proof.
  intros Hd. unfold process_routes, mbind, M_bind, lift.
  cbn -[delivered_route mixed_route]. by rewrite Hd.
Qed.

(** In a dry run the command-line tool sends nothing and records nothing. *)
Lemma process_stops_dry_run (twilio_client : TwilioSMSClient)
    (stops : list RouteStop.t) (results : list SendResult) (w : World) :
  process_stops twilio_client sample_templates (mkConfig true) stops results w
  = (Return results, w).
Proof.
  revert results. induction stops as [|stop rest IH]; intros results.
  - reflexivity.
  - simpl. destruct (negb _); apply IH.
Qed.

(** ** The phone field of an outcome *)

Lemma substring_all (s : string) : String.substring 0 (String.length s) s = s.
Proof. induction s as [|c s IH]; simpl; [done|by rewrite IH]. Qed.

Lemma string_length_app (a b : string) :
  String.length (a +:+ b) = String.length a + String.length b.
Proof. induction a as [|c a IH]; simpl; [done|by rewrite IH]. Qed.

Lemma slice_last_app (n : nat) (a b : string) :
  String.length b = n → slice_last n (a +:+ b) = b.
Proof.
  intros <-. unfold slice_last. rewrite string_length_app.
  replace (String.length a + String.length b - String.length b)
    with (String.length a) by lia.
  induction a as [|c a IH]; simpl; [apply substring_all|apply IH].
Qed.

Lemma re_sub_nondigit_app (a b : string) :
  re_sub_nondigit (a +:+ b) = re_sub_nondigit a +:+ re_sub_nondigit b.
Proof.
  induction a as [|c a IH]; simpl; [done|].
  destruct (is_digit c); simpl; by rewrite IH.
Qed.

(** Where the number ends with four digits, the last four characters are
    the last four digits, and they are not the whole number when something
    precedes them. *)
Lemma slice_last_is_last4_digits (a b : string) :
  String.length b = 4 → re_sub_nondigit b = b →
  slice_last 4 (a +:+ b) = last4_digits (a +:+ b) ∧
  (a ≠ "" → slice_last 4 (a +:+ b) ≠ a +:+ b).
Proof.
  intros Hl Hd. unfold last4_digits.
  rewrite re_sub_nondigit_app, Hd, !slice_last_app by done.
  split; [done|]. intros Ha Heq.
  apply (f_equal String.length) in Heq. rewrite string_length_app in Heq.
  destruct a; [done|simpl in Heq; lia].
Qed.

(** C9, at its failing inputs: the phone field is the last four characters
    of the number as the backend gave it. For "(555) 123-4567 x12" it is
    " x12", not the last four digits "6712"; for the number "911" it is the
    whole number. *)
Theorem C9_phone_field_is_last_four_characters
    (twilio_client : TwilioSMSClient) (message : string) (w : World) :
  (∃ (d : Detail.t) (ns nf : nat) (wf : World),
     send_messages_to_stops twilio_client [stop_ext] message w
     = (Return (mkResults 1 ns nf [d]), wf) ∧
     Detail.phone d = Some " x12" ∧
     last4_digits "(555) 123-4567 x12" = "6712") ∧
  (∃ (d : Detail.t) (ns nf : nat) (wf : World),
     send_messages_to_stops twilio_client [stop_short] message w
     = (Return (mkResults 1 ns nf [d]), wf) ∧
     Detail.phone d = Some "911").
Proof.
  split.
  - unfold send_messages_to_stops. simpl. unfold mbind, M_bind.
    set (req := mkSendRequest message (from_number twilio_client)
                  (_format_phone_number "(555) 123-4567 x12")).
    destruct (messages_create twilio_client w req) as [m|e] eqn:Hc.
    + rewrite (try_send_created _ _ _ _ _ _ _ Hc).
      eexists _, _, _, _. split; [reflexivity|done].
    + rewrite (try_send_raised _ _ _ _ _ _ _ Hc).
      eexists _, _, _, _. split; [reflexivity|done].
  - unfold send_messages_to_stops. simpl. unfold mbind, M_bind.
    set (req := mkSendRequest message (from_number twilio_client)
                  (_format_phone_number "911")).
    destruct (messages_create twilio_client w req) as [m|e] eqn:Hc.
    + rewrite (try_send_created _ _ _ _ _ _ _ Hc).
      eexists _, _, _, _. split; [reflexivity|done].
    + rewrite (try_send_raised _ _ _ _ _ _ _ Hc).
      eexists _, _, _, _. split; [reflexivity|done].
Qed.

(** * Further properties of the code *)

(** ** The shape of a normalized number *)

Lemma re_sub_nondigit_all_digits (s : string) :
  forallb is_digit (list_ascii_of_string (re_sub_nondigit s)) = true.
Proof.
  induction s as [|c s IH]; simpl; [done|].
  destruct (is_digit c) eqn:Hc; simpl; [by rewrite Hc|done].
Qed.

(** X1: the normalized number is "+" followed by digits only, either the
    digits of the input or "1" and the ten digits of the input; it is the
    bare "+" exactly when the input holds no digit at all, and nothing is
    refused. *)
Theorem format_phone_number_shape (phone_number : string) :
  ∃ d : string,
    _format_phone_number phone_number = String "+" d ∧
    forallb is_digit (list_ascii_of_string d) = true ∧
    (d = re_sub_nondigit phone_number ∨
     (String.length (re_sub_nondigit phone_number) = 10 ∧
      d = String "1" (re_sub_nondigit phone_number))) ∧
    (_format_phone_number phone_number = "+"
     ↔ re_sub_nondigit phone_number = "").
Proof.
  unfold _format_phone_number.
  pose proof (re_sub_nondigit_all_digits phone_number) as Hd.
  set (digits := re_sub_nondigit phone_number) in *. clearbody digits.
  destruct (String.length digits =? 10)%nat eqn:H10.
  - apply Nat.eqb_eq in H10. exists (String "1" digits).
    split_and!; [done|by simpl; rewrite Hd|by right|].
    split; [discriminate|]. intros ->. discriminate H10.
  - exists digits. split_and!.
    + by destruct (_ && _).
    + done.
    + by left.
    + change ("+" +:+ digits) with (String "+" digits).
      destruct (_ && _); (split; [by intros [= ->]|by intros ->]).
Qed.

(** X2: two spellings with the same digits give the same number, and a
    ten-digit number gives the same result with or without a leading 1. *)
Theorem format_phone_number_same_number :
  (∀ s1 s2 : string,
     re_sub_nondigit s1 = re_sub_nondigit s2 →
     _format_phone_number s1 = _format_phone_number s2) ∧
  (∀ s : string,
     String.length (re_sub_nondigit s) = 10 →
     _format_phone_number (String "1" s) = _format_phone_number s).
Proof.
  split.
  - intros s1 s2 Heq. unfold _format_phone_number. by rewrite Heq.
  - intros s H10. unfold _format_phone_number.
    rewrite re_sub_nondigit_one.
    change (String.length (String "1" (re_sub_nondigit s)))
      with (S (String.length (re_sub_nondigit s))).
    rewrite H10. cbn. by destruct (String.prefix _ _).
Qed.

Lemma format_phone_number_same_number_witness :
  _format_phone_number "(555) 123-4567" = _format_phone_number "555.123.4567" ∧
  _format_phone_number (String "1" "555-123-4567")
  = _format_phone_number "555-123-4567".
Proof.
  destruct format_phone_number_same_number as [Hsame Hone].
  split; [apply Hsame|apply Hone]; reflexivity.
Defined.

(** ** One call of send_message *)

(** X3: a call of [send_message] hands exactly one request to the provider,
    with the message, the client's number and the normalized number. It
    returns a success with the normalized number when the provider created
    the message, a failure with the number as it was given when the
    provider raised its own exception, and lets every other exception
    through. *)
Theorem send_message_outcome
    (self : TwilioSMSClient) (to_number message_body : string) (w : World) :
  let req := request_for self to_number message_body in
  snd (send_message self to_number message_body w) = w ++ [req] ∧
  match fst (send_message self to_number message_body w) with
  | Return (SendSuccess message_sid status to) =>
      messages_create self w req = Return (mkMessage message_sid status) ∧
      to = _format_phone_number to_number
  | Return (SendFailure error to) =>
      messages_create self w req = Raise (TwilioException error) ∧
      to = to_number
  | Raise e =>
      messages_create self w req = Raise e ∧ is_TwilioException e = false
  end.
Proof.
  intros req.
  destruct (messages_create self w req) as [m|e] eqn:Hc.
  - rewrite (send_message_created _ _ _ _ _ Hc). simpl.
    split; [done|]. by destruct m.
  - rewrite (send_message_raised _ _ _ _ _ Hc). simpl.
    split; [done|]. by destruct e.
Qed.

(** ** What a run of send_messages_to_stops sends and records *)

Section Trace.
Variable twilio_client : TwilioSMSClient.
Variable message : string.

Lemma has_phone_Some (stop : StopDict.t) :
  has_phone stop = true →
  ∃ p, StopDict.get_phone stop = Some p ∧ p ≠ "".
Proof.
  unfold has_phone. destruct (StopDict.get_phone stop) as [[|c p]|]; try done.
  intros _. by eexists.
Qed.

Lemma phone_numbers_cons (stop : StopDict.t) (rest : list StopDict.t) :
  phone_numbers (stop :: rest)
  = if has_phone stop
    then default "" (StopDict.get_phone stop) :: phone_numbers rest
    else phone_numbers rest.
Proof. unfold phone_numbers. simpl. by destruct (has_phone stop). Qed.

(** The entries of a run, the counters and the requests, for any [results]
    the loop starts from. *)
Lemma send_messages_loop_trace (stops : list StopDict.t) (w : World) :
  ∃ ds : list Detail.t,
    Forall2 entry_of stops ds ∧
    ∀ results,
      send_messages_loop twilio_client stops message results w
      = (Return (extend results (List.length (List.filter is_sent ds))
                   (List.length (List.filter is_failed ds)) ds),
         w ++ ((fun p => request_for twilio_client p message)
                 <$> phone_numbers stops)).
Proof.
  revert w. induction stops as [|stop rest IH]; intros w.
  - exists []. split; [constructor|]. intros results.
    unfold extend. simpl. rewrite !Nat.add_0_r, !app_nil_r.
    by destruct results.
  - rewrite phone_numbers_cons. simpl. fold (has_phone stop).
    destruct (has_phone stop) eqn:Hp; simpl.
    + destruct (has_phone_Some _ Hp) as (p & Hget & Hne).
      rewrite Hget. simpl.
      destruct (IH (w ++ [request_for twilio_client p message]))
        as (ds & Hds & Hrun).
      destruct (messages_create twilio_client w
                  (request_for twilio_client p message)) as [m|e] eqn:Hc.
      * eexists (_ :: ds). split.
        { constructor; [|exact Hds]. by apply (entry_sent _ p (sid m)). }
        intros results. unfold mbind, M_bind.
        rewrite (try_send_created _ _ _ _ _ _ _ Hc), Hrun.
        rewrite extend_record_sent, <- app_assoc. reflexivity.
      * eexists (_ :: ds). split.
        { constructor; [|exact Hds]. by apply (entry_failed _ p (str e)). }
        intros results. unfold mbind, M_bind.
        rewrite (try_send_raised _ _ _ _ _ _ _ Hc), Hrun.
        rewrite extend_record_failure, <- app_assoc. reflexivity.
    + destruct (IH w) as (ds & Hds & Hrun).
      eexists (_ :: ds). split.
      { constructor; [|exact Hds]. by apply entry_no_phone. }
      intros results. rewrite Hrun, extend_record_failure. reflexivity.
Qed.

(** The counters when the provider answers every request the same way. *)
Lemma send_messages_loop_uniform (accepts : bool) (stops : list StopDict.t) :
  (∀ w req, if accepts
            then ∃ m, messages_create twilio_client w req = Return m
            else ∃ e, messages_create twilio_client w req = Raise e) →
  ∀ results w,
    ∃ results' w',
      send_messages_loop twilio_client stops message results w
      = (Return results', w') ∧
      messages_sent results'
      = messages_sent results
        + (if accepts then List.length (phone_numbers stops) else 0) ∧
      failures results'
      = failures results
        + (if accepts
           then List.length stops - List.length (phone_numbers stops)
           else List.length stops).
Proof.
  intros Hall.
  assert (Hle : ∀ l, (List.length (phone_numbers l) ≤ List.length l)%nat).
  { intros l. unfold phone_numbers. rewrite length_fmap.
    apply List.filter_length_le. }
  induction stops as [|stop rest IH]; intros results w.
  - exists results, w. split; [done|]. destruct accepts; simpl; lia.
  - rewrite phone_numbers_cons. simpl. fold (has_phone stop).
    destruct (has_phone stop) eqn:Hp; simpl.
    + destruct (has_phone_Some _ Hp) as (p & Hget & Hne).
      rewrite Hget. simpl. unfold mbind, M_bind.
      specialize (Hall w (request_for twilio_client p message)).
      specialize (Hle rest).
      destruct accepts.
      * destruct Hall as [m Hc].
        rewrite (try_send_created _ _ _ _ _ _ _ Hc).
        edestruct IH as (r' & w' & -> & Hs & Hf).
        exists r', w'. split; [done|]. rewrite Hs, Hf. simpl. lia.
      * destruct Hall as [e Hc].
        rewrite (try_send_raised _ _ _ _ _ _ _ Hc).
        edestruct IH as (r' & w' & -> & Hs & Hf).
        exists r', w'. split; [done|]. rewrite Hs, Hf. simpl. lia.
    + edestruct IH as (r' & w' & -> & Hs & Hf).
      exists r', w'. split; [done|]. rewrite Hs, Hf. simpl.
      specialize (Hle rest). destruct accepts; lia.
Qed.
End Trace.

(** X7: a run over two lists one after the other is the run over the first
    followed by the run over the second from the state the first one
    leaves: the entries are concatenated and the counters added. *)
Theorem send_messages_to_stops_app
    (twilio_client : TwilioSMSClient) (stops1 stops2 : list StopDict.t)
    (message : string) (w w1 w2 : World) (r1 r2 : Results) :
  send_messages_to_stops twilio_client stops1 message w = (Return r1, w1) →
  send_messages_to_stops twilio_client stops2 message w1 = (Return r2, w2) →
  send_messages_to_stops twilio_client (stops1 ++ stops2) message w
  = (Return (mkResults (total_stops r1 + total_stops r2)
               (messages_sent r1 + messages_sent r2)
               (failures r1 + failures r2)
               (details r1 ++ details r2)), w2).
Proof.
  unfold send_messages_to_stops. intros H1 H2.
  destruct (send_messages_loop_spec twilio_client message stops1 w)
    as (d1 & ns1 & nf1 & w1' & _ & _ & _ & Hrun1).
  rewrite Hrun1 in H1. injection H1 as <- <-.
  destruct (send_messages_loop_spec twilio_client message stops2 w1')
    as (d2 & ns2 & nf2 & w2' & _ & _ & _ & Hrun2).
  rewrite Hrun2 in H2. injection H2 as <- <-.
  rewrite send_messages_loop_app. unfold mbind, M_bind.
  rewrite Hrun1, Hrun2. unfold extend. simpl.
  rewrite length_app. reflexivity.
Qed.

Lemma send_messages_to_stops_app_witness :
  send_messages_to_stops sample_twilio ([stop_A; stop_B] ++ [stop_C])
    "Running late" []
  = (Return (mkResults (2 + 1) (1 + 0) (1 + 1)
       ([Detail.mk "stop-A" "failed" (Some "No phone number") None None;
         Detail.mk "stop-B" "sent" None (Some "0001") (Some "SM0001")] ++
        [Detail.mk "stop-C" "failed" (Some "InvalidNumber") (Some "0002")
           None])),
     [mkSendRequest "Running late" "+15550000000" "+15551230001";
      mkSendRequest "Running late" "+15550000000" "+15551230002"]).
Proof.
  apply (send_messages_to_stops_app sample_twilio [stop_A; stop_B] [stop_C]
           "Running late" []
           [mkSendRequest "Running late" "+15550000000" "+15551230001"]
           [mkSendRequest "Running late" "+15550000000" "+15551230001";
            mkSendRequest "Running late" "+15550000000" "+15551230002"]
           (mkResults 2 1 1
              [Detail.mk "stop-A" "failed" (Some "No phone number") None None;
               Detail.mk "stop-B" "sent" None (Some "0001") (Some "SM0001")])
           (mkResults 1 0 1
              [Detail.mk "stop-C" "failed" (Some "InvalidNumber")
                 (Some "0002") None]));
    reflexivity.
Defined.

(** ** The answers of send_sms *)

Section SendSms.
Variable session : Session.
Variable easyroutes : EasyRoutesClient.
Variable twilio : TwilioSMSClient.

(** The handler, with the decorator, the monad and the outer [try]
    unfolded: one answer per path through the code. *)
Lemma send_sms_paths (data : RequestData) (w : World) :
  let number := default "" (route_number data) in
  let text := default "" (message data) in
  send_sms session easyroutes twilio data w
  = if negb (authenticated session) then
      (Return (mkResponse (ErrorBody "Authentication required") 401), w)
    else if negb (truthy (route_number data)) || negb (truthy (message data))
    then
      (Return (mkResponse
                 (ErrorBody "Route number and message are required") 400), w)
    else if (160 <? String.length text)%nat then
      (Return (mkResponse
                 (ErrorBody "Message too long (max 160 characters)") 400), w)
    else
      match get_route_by_number easyroutes number with
      | Raise e => (Return (mkResponse (ErrorBody (str e)) 500), w)
      | Return None =>
          (Return (mkResponse
                     (ErrorBody ("Route " +:+ number +:+ " not found")) 404),
           w)
      | Return (Some route) =>
          match get_route easyroutes (RouteDict.id route) with
          | Raise e => (Return (mkResponse (ErrorBody (str e)) 500), w)
          | Return fetched =>
              match get_incomplete_stops_loop
                      (default [] (RouteDict.stops fetched)) [] with
              | [] =>
                  (Return (mkResponse
                     (NoStopsBody "No incomplete stops found for this route"
                        (mkResults 0 0 0 [])) 200), w)
              | stop :: rest =>
                  match send_messages_to_stops twilio (stop :: rest) text w
                  with
                  | (Return results, w') =>
                      (Return (mkResponse (ResultsBody results) 200), w')
                  | (Raise e, w') =>
                      (Return (mkResponse (ErrorBody (str e)) 500), w')
                  end
              end
          end
      end.
Proof.
  intros number text. unfold send_sms, require_auth, try_except.
  destruct (authenticated session); [|reflexivity]. cbn [negb].
  destruct (negb (truthy (route_number data)) || negb (truthy (message data)));
    [reflexivity|].
  fold number text. destruct (160 <? String.length text)%nat; [reflexivity|].
  unfold mbind, M_bind, lift, get_incomplete_stops.
  destruct (get_route_by_number easyroutes number) as [[route|]|e];
    try reflexivity.
  unfold mbind, M_bind, lift.
  destruct (get_route easyroutes (RouteDict.id route)) as [fetched|e];
    [|reflexivity].
  unfold mret at 1, M_ret at 1.
  destruct (get_incomplete_stops_loop _ []) as [|stop rest]; [reflexivity|].
  destruct (send_messages_to_stops twilio (stop :: rest) text w)
    as [[results|e] w']; reflexivity.
Qed.

Lemma send_messages_to_stops_returns (stops : list StopDict.t)
    (text : string) (w : World) :
  ∃ results,
    send_messages_to_stops twilio stops text w
    = (Return results,
       w ++ ((fun p => request_for twilio p text) <$> phone_numbers stops)) ∧
    Forall2 entry_of stops (details results) ∧
    total_stops results = List.length stops.
Proof.
  destruct (send_messages_loop_trace twilio text stops w) as (ds & Hds & Hrun).
  unfold send_messages_to_stops. rewrite Hrun.
  eexists. split; [reflexivity|]. by simpl.
Qed.
End SendSms.

(** X9: the three refusals of a logged-in request. Without a route number
    or without a message, missing or empty: 400. With a route the backend
    does not know: 404, naming the route. When the backend raises: 500 with
    the text of the exception. *)
Theorem send_sms_refusals
    (easyroutes : EasyRoutesClient) (twilio : TwilioSMSClient)
    (data : RequestData) (w : World) :
  (truthy (route_number data) = false ∨ truthy (message data) = false →
   send_sms (mkSession true) easyroutes twilio data w
   = (Return (mkResponse
                (ErrorBody "Route number and message are required") 400),
      w)) ∧
  (∀ number text : string,
     route_number data = Some number → message data = Some text →
     number ≠ "" → text ≠ "" → (String.length text ≤ 160)%nat →
     (get_route_by_number easyroutes number = Return None →
      send_sms (mkSession true) easyroutes twilio data w
      = (Return (mkResponse
                   (ErrorBody ("Route " +:+ number +:+ " not found")) 404),
         w)) ∧
     (∀ e, get_route_by_number easyroutes number = Raise e →
        send_sms (mkSession true) easyroutes twilio data w
        = (Return (mkResponse (ErrorBody (str e)) 500), w)) ∧
     (∀ route e,
        get_route_by_number easyroutes number = Return (Some route) →
        get_route easyroutes (RouteDict.id route) = Raise e →
        send_sms (mkSession true) easyroutes twilio data w
        = (Return (mkResponse (ErrorBody (str e)) 500), w))).
Proof.
  split.
  - intros Hmiss. rewrite send_sms_paths. cbn [authenticated negb].
    by destruct Hmiss as [-> | ->]; rewrite ?orb_true_r.
  - intros number text Hn Ht Hne Hte Hlen.
    assert (Hpaths := send_sms_paths (mkSession true) easyroutes twilio data w).
    cbv zeta in Hpaths. rewrite Hn, Ht in Hpaths.
    destruct number as [|c number']; [done|].
    destruct text as [|c' text']; [done|].
    apply Nat.ltb_ge in Hlen.
    cbn [authenticated negb truthy orb default from_option id] in Hpaths.
    rewrite Hlen in Hpaths.
    split_and!.
    + intros Hr. by rewrite Hr in Hpaths.
    + intros e Hr. by rewrite Hr in Hpaths.
    + intros route e Hr Hg. by rewrite Hr, Hg in Hpaths.
Qed.

Lemma send_sms_refusals_witness :
  send_sms (mkSession true) sample_easyroutes sample_twilio
    (mkRequestData (Some "RT-1") (Some "")) []
  = (Return (mkResponse
               (ErrorBody "Route number and message are required") 400), []) ∧
  send_sms (mkSession true) sample_easyroutes sample_twilio
    (mkRequestData (Some "RT-9") (Some "Running late")) []
  = (Return (mkResponse (ErrorBody "Route RT-9 not found") 404), []).
Proof.
  destruct (send_sms_refusals sample_easyroutes sample_twilio
              (mkRequestData (Some "RT-1") (Some "")) []) as [H400 _].
  destruct (send_sms_refusals sample_easyroutes sample_twilio
              (mkRequestData (Some "RT-9") (Some "Running late")) [])
    as [_ H].
  split.
  - apply H400. by right.
  - destruct (H "RT-9" "Running late" eq_refl eq_refl
                ltac:(discriminate) ltac:(discriminate) ltac:(simpl; lia))
      as (H404 & _).
    by apply H404.
Defined.

(** X10: every request the handler hands to the provider carries the
    message of the request to the handler, unchanged, of 1 to 160
    characters, and the client's own number as the sender. *)
Theorem send_sms_request_bodies
    (session : Session) (easyroutes : EasyRoutesClient)
    (twilio : TwilioSMSClient) (data : RequestData) (w : World) :
  ∃ new : list SendRequest,
    snd (send_sms session easyroutes twilio data w) = w ++ new ∧
    Forall (fun req =>
              message data = Some (req_body req) ∧
              (1 ≤ String.length (req_body req) ≤ 160)%nat ∧
              req_from req = from_number twilio) new.
Proof.
  rewrite send_sms_paths.
  destruct (negb (authenticated session));
    [exists []; by rewrite app_nil_r|].
  destruct (negb (truthy (route_number data)) || negb (truthy (message data)))
    eqn:Htruthy; [exists []; by rewrite app_nil_r|].
  destruct (_ <? _)%nat eqn:Hlen; [exists []; by rewrite app_nil_r|].
  destruct (get_route_by_number _ _) as [[route|]|e];
    try (exists []; by rewrite app_nil_r).
  destruct (get_route _ _) as [fetched|e];
    try (exists []; by rewrite app_nil_r).
  destruct (get_incomplete_stops_loop _ _) as [|stop rest];
    [exists []; by rewrite app_nil_r|].
  destruct (send_messages_to_stops_returns twilio (stop :: rest)
              (default "" (message data)) w) as (results & -> & _).
  eexists. split; [reflexivity|].
  apply orb_false_elim in Htruthy as [_ Hm]. apply negb_false_iff in Hm.
  apply Nat.ltb_ge in Hlen.
  destruct (message data) as [[|c text]|]; try done.
  apply Forall_fmap, Forall_forall. intros p _. simpl in *.
  split_and!; [done|lia|lia|done].
Qed.

(** ** Logging in and out *)

(** X13: the life of a session. After a successful login a protected
    handler runs as written; after a logout it is answered 401 and does
    nothing, whatever the session held; a refused login does not log out a
    session that was logged in. *)
Theorem session_lifecycle
    (admin_password : option string) (now : string)
    (data : AuthRoutes.LoginData) (session : AuthRoutes.FlaskSession)
    (f : M Response) (w : World) :
  (AuthRoutes.password data = admin_password →
   require_auth
     (AuthRoutes.current
        (snd (AuthRoutes.login admin_password now data session))) f w
   = f w) ∧
  require_auth (AuthRoutes.current (snd (AuthRoutes.logout session))) f w
  = (Return (mkResponse (ErrorBody "Authentication required") 401), w) ∧
  (AuthRoutes.password data ≠ admin_password →
   require_auth
     (AuthRoutes.current
        (snd (AuthRoutes.login admin_password now data session))) f w
   = require_auth (AuthRoutes.current session) f w).
Proof.
  unfold AuthRoutes.login. split_and!.
  - intros Heq. by rewrite bool_decide_eq_true_2.
  - reflexivity.
  - intros Hne. by rewrite bool_decide_eq_false_2.
Qed.

Lemma session_lifecycle_witness :
  require_auth
    (AuthRoutes.current
       (snd (AuthRoutes.login (Some "s3cret") "2025-07-24T10:00:00"
               (AuthRoutes.mkLoginData (Some "s3cret")) AuthRoutes.cleared)))
    (send_sms (mkSession true) sample_easyroutes sample_twilio
       (mkRequestData (Some "RT-1") (Some "Running late"))) []
  = send_sms (mkSession true) sample_easyroutes sample_twilio
      (mkRequestData (Some "RT-1") (Some "Running late")) [].
Proof.
  apply (session_lifecycle (Some "s3cret")). reflexivity.
Defined.

(** ** Runs of the command-line tool *)

Lemma filter_concat {A : Type} (f : A → bool) (ls : list (list A)) :
  List.filter f (List.concat ls) = List.concat (List.filter f <$> ls).
Proof.
  induction ls as [|l ls IH]; simpl; [done|].
  by rewrite List.filter_app, IH.
Qed.

Section CommandLineRuns.
Variable twilio_client : TwilioSMSClient.
Variable templates : MessageTemplates.

(** The routes one after the other are their incomplete stops one after the
    other. *)
Lemma process_route_list_concat (from_dict : RouteDict.t → Route.t)
    (config : Config) (route_list : list RouteDict.t)
    (results : list SendResult) (w : World) :
  process_route_list from_dict twilio_client templates config route_list
    results w
  = process_stops twilio_client templates config
      (List.filter RouteStop.is_incomplete
         (List.concat ((fun route_data => Route.stops (from_dict route_data))
                    <$> route_list)))
      results w.
Proof.
  revert results w. induction route_list as [|route_data rest IH];
    intros results w; simpl; [done|].
  rewrite List.filter_app, process_stops_app. unfold mbind, M_bind.
  fold (Route.incomplete_stops (from_dict route_data)).
  destruct (process_stops _ _ _ (Route.incomplete_stops _) results w)
    as [[r|e] w']; [apply IH|done].
Qed.

Lemma cli_phone_numbers_cons (stop : RouteStop.t) (rest : list RouteStop.t) :
  cli_phone_numbers (stop :: rest)
  = if cli_has_phone stop
    then RouteStop.phone_number stop :: cli_phone_numbers rest
    else cli_phone_numbers rest.
Proof. unfold cli_phone_numbers. simpl. by destruct (cli_has_phone stop). Qed.

(** A run that sends and returns: one result and one request for each stop
    with a phone number. *)
Lemma process_stops_trace (stops : list RouteStop.t)
    (results results' : list SendResult) (w w' : World) :
  process_stops twilio_client templates (mkConfig false) stops results w
  = (Return results', w') →
  ∃ (new : list SendResult) (reqs : list SendRequest),
    results' = results ++ new ∧ w' = w ++ reqs ∧
    Forall2 (fun p r =>
               match r with
               | SendSuccess _ _ to => to = _format_phone_number p
               | SendFailure _ to => to = p
               end) (cli_phone_numbers stops) new ∧
    req_to <$> reqs = _format_phone_number <$> cli_phone_numbers stops ∧
    Forall (fun req => req_from req = from_number twilio_client) reqs.
Proof.
  revert results w. induction stops as [|stop rest IH]; intros results w.
  - intros [= <- <-]. exists [], []. rewrite !app_nil_r.
    split_and!; try done; constructor.
  - rewrite cli_phone_numbers_cons. unfold cli_has_phone. simpl.
    destruct (RouteStop.phone_number stop) as [|c p'] eqn:Hphone; simpl;
      [apply IH|].
    unfold mbind, M_bind, lift.
    destruct (get_status_message _ _) as [status_message|e]; [|done].
    destruct (render _ _ _ _ _) as [message_body|e]; [|done].
    set (p := String c p').
    destruct (messages_create twilio_client w
                (request_for twilio_client p message_body)) as [m|e] eqn:Hc.
    + rewrite (send_message_created _ _ _ _ _ Hc).
      intros Hrun. apply IH in Hrun
        as (new & reqs & -> & -> & Hnew & Hto & Hfrom).
      eexists (_ :: new), (request_for twilio_client p message_body :: reqs).
      rewrite <- !app_assoc. split_and!; try done.
      * by constructor.
      * by rewrite !fmap_cons, Hto.
      * by constructor.
    + rewrite (send_message_raised _ _ _ _ _ Hc).
      destruct (is_TwilioException e); [|done].
      intros Hrun. apply IH in Hrun
        as (new & reqs & -> & -> & Hnew & Hto & Hfrom).
      eexists (_ :: new), (request_for twilio_client p message_body :: reqs).
      rewrite <- !app_assoc. split_and!; try done.
      * by constructor.
      * by rewrite !fmap_cons, Hto.
      * by constructor.
Qed.

(** A dry run changes nothing. *)
Lemma process_stops_dry (stops : list RouteStop.t)
    (results : list SendResult) (w : World) :
  snd (process_stops twilio_client templates (mkConfig true) stops results w)
  = w ∧
  ∀ results',
    fst (process_stops twilio_client templates (mkConfig true) stops
           results w) = Return results' →
    results' = results.
Proof.
  revert results. induction stops as [|stop rest IH]; intros results.
  - split; [done|]. by intros ? [= <-].
  - simpl. destruct (negb _); [apply IH|].
    unfold mbind, M_bind, lift.
    destruct (get_status_message _ _) as [status_message|e]; [|done].
    destruct (render _ _ _ _ _) as [message_body|e]; [|done].
    apply IH.
Qed.
End CommandLineRuns.

(** X14: when a run of the command-line tool that really sends returns its
    results, it has made one request and recorded one result for each stop,
    over all the routes in order, whose status is not DELIVERED and that has
    a phone number, and for no other stop. The request goes to the
    normalized number; a success result holds the normalized number, a
    failure result the number as the backend gave it. *)
Theorem process_routes_results
    (from_dict : RouteDict.t → Route.t) (easyroutes_client : EasyRoutesClient)
    (twilio_client : TwilioSMSClient) (templates : MessageTemplates)
    (routes_response : RoutesResponse) (results : list SendResult)
    (w w' : World) :
  get_routes easyroutes_client = Return routes_response →
  process_routes from_dict easyroutes_client twilio_client templates
    (mkConfig false) w
  = (Return results, w') →
  let targets :=
    List.filter (fun stop => RouteStop.is_incomplete stop && cli_has_phone stop)
      (List.concat ((fun route_data => Route.stops (from_dict route_data))
                 <$> default [] (routes routes_response))) in
  ∃ reqs : list SendRequest,
    w' = w ++ reqs ∧
    req_to <$> reqs
    = (fun stop => _format_phone_number (RouteStop.phone_number stop))
        <$> targets ∧
    Forall2 (fun stop r =>
               match r with
               | SendSuccess _ _ to =>
                   to = _format_phone_number (RouteStop.phone_number stop)
               | SendFailure _ to => to = RouteStop.phone_number stop
               end) targets results.
Proof.
  intros Hget Hrun targets. unfold process_routes, mbind, M_bind, lift in Hrun.
  rewrite Hget in Hrun. rewrite process_route_list_concat in Hrun.
  apply process_stops_trace in Hrun
    as (new & reqs & -> & -> & Hnew & Hto & _).
  assert (Htargets :
    cli_phone_numbers
      (List.filter RouteStop.is_incomplete
         (List.concat ((fun route_data => Route.stops (from_dict route_data))
                    <$> default [] (routes routes_response))))
    = RouteStop.phone_number <$> targets).
  { unfold cli_phone_numbers, targets. f_equal.
    generalize (List.concat ((fun route_data => Route.stops (from_dict route_data))
                          <$> default [] (routes routes_response))).
    intros l. induction l as [|stop l IH]; simpl; [done|].
    destruct (RouteStop.is_incomplete stop); simpl; [|done].
    destruct (cli_has_phone stop); by rewrite IH. }
  rewrite Htargets in Hnew, Hto.
  exists reqs. split_and!; [done|by rewrite Hto, <- list_fmap_compose|].
  simpl. by apply Forall2_fmap_l in Hnew.
Qed.

Lemma process_routes_results_witness :
  ∃ reqs : list SendRequest,
    snd (process_routes (fun _ => cli_route) sample_easyroutes sample_twilio
           sample_templates (mkConfig false) [])
    = [] ++ reqs ∧
    req_to <$> reqs
    = ["+15551230001"; "+15551230003"; "+15551230001"; "+15551230003"].
Proof.
  destruct (process_routes (fun _ => cli_route) sample_easyroutes
              sample_twilio sample_templates (mkConfig false) [])
    as [[results|e] w'] eqn:Hrun; [|by vm_compute in Hrun].
  destruct (process_routes_results (fun _ => cli_route) sample_easyroutes
              sample_twilio sample_templates _ results [] w' eq_refl Hrun)
    as (reqs & Hw & Hto & _).
  exists reqs. split; [exact Hw|exact Hto].
Defined.

(** X15: in a dry run the command-line tool makes no request to the
    provider, whatever the backend and the templates do, and when it
    returns, it returns no result. *)
Theorem process_routes_dry_run
    (from_dict : RouteDict.t → Route.t) (easyroutes_client : EasyRoutesClient)
    (twilio_client : TwilioSMSClient) (templates : MessageTemplates)
    (w : World) :
  snd (process_routes from_dict easyroutes_client twilio_client templates
         (mkConfig true) w) = w ∧
  ∀ results,
    fst (process_routes from_dict easyroutes_client twilio_client templates
           (mkConfig true) w) = Return results →
    results = [].
Proof.
  unfold process_routes, mbind, M_bind, lift.
  destruct (get_routes easyroutes_client) as [routes_response|e]; [|done].
  rewrite process_route_list_concat. apply process_stops_dry.
Qed.

(** X16: when the provider fails on a stop, the command-line tool keeps a
    failure result with the number as given and goes on with the next stop
    if the exception is the provider's own; any other exception ends the
    run at once: the later stops are not processed and the results so far
    are not returned, although their messages were sent. *)
Theorem process_stops_provider_failure
    (twilio_client : TwilioSMSClient) (templates : MessageTemplates)
    (pre post : list RouteStop.t) (stop : RouteStop.t)
    (status_message message_body : string) (e : Exception)
    (results r1 : list SendResult) (w w1 : World) :
  let req := request_for twilio_client (RouteStop.phone_number stop)
               message_body in
  process_stops twilio_client templates (mkConfig false) pre results w
  = (Return r1, w1) →
  RouteStop.phone_number stop ≠ "" →
  get_status_message templates (RouteStop.delivery_status stop)
  = Return status_message →
  render templates "default" (RouteStop.customer_name stop)
    (default "" (formatted (RouteStop.address stop))) status_message
  = Return message_body →
  messages_create twilio_client w1 req = Raise e →
  process_stops twilio_client templates (mkConfig false)
    (pre ++ stop :: post) results w
  = if is_TwilioException e
    then process_stops twilio_client templates (mkConfig false) post
           (r1 ++ [SendFailure (str e) (RouteStop.phone_number stop)])
           (w1 ++ [req])
    else (Raise e, w1 ++ [req]).
Proof.
  intros req Hpre Hp Hstatus Hrender Hc.
  assert (Ht : truthy (Some (RouteStop.phone_number stop)) = true)
    by (destruct (RouteStop.phone_number stop); done).
  rewrite process_stops_app. unfold mbind at 1, M_bind at 1. rewrite Hpre.
  cbn [process_stops]. rewrite Ht. cbn [negb dry_run].
  unfold mbind, M_bind, lift. rewrite Hstatus, Hrender.
  rewrite (send_message_raised _ _ _ _ _ Hc).
  by destruct (is_TwilioException e).
Qed.

Lemma process_stops_provider_failure_witness :
  process_stops broken_twilio sample_templates (mkConfig false)
    ([] ++ cli_stop "stop-1" (Some "(555) 123-0001")
        :: [cli_stop "stop-3" (Some "(555) 123-0003")]) [] []
  = (Raise (OtherException "Connection reset"),
     [] ++ [mkSendRequest
              "Hello Gus, your delivery to 1 Main St is currently out for delivery."
              "+15550000000" "+15551230001"]).
Proof.
  apply (process_stops_provider_failure broken_twilio sample_templates []
           [cli_stop "stop-3" (Some "(555) 123-0003")]
           (cli_stop "stop-1" (Some "(555) 123-0001"))
           "out for delivery"
           "Hello Gus, your delivery to 1 Main St is currently out for delivery."
           (OtherException "Connection reset") [] [] [] []);
    (reflexivity || discriminate).
Defined.

(** X17: when the templates raise for a stop with a phone number, the run
    ends with that exception before any request for the stop, in a dry run
    as well; the requests made are those of the stops before it. *)
Theorem process_stops_template_error
    (twilio_client : TwilioSMSClient) (templates : MessageTemplates)
    (config : Config) (pre post : list RouteStop.t) (stop : RouteStop.t)
    (e : Exception) (results r1 : list SendResult) (w w1 : World) :
  process_stops twilio_client templates config pre results w
  = (Return r1, w1) →
  RouteStop.phone_number stop ≠ "" →
  (get_status_message templates (RouteStop.delivery_status stop) = Raise e ∨
   ∃ status_message,
     get_status_message templates (RouteStop.delivery_status stop)
     = Return status_message ∧
     render templates "default" (RouteStop.customer_name stop)
       (default "" (formatted (RouteStop.address stop))) status_message
     = Raise e) →
  process_stops twilio_client templates config (pre ++ stop :: post) results w
  = (Raise e, w1).
Proof.
  intros Hpre Hp Hraise.
  assert (Ht : truthy (Some (RouteStop.phone_number stop)) = true)
    by (destruct (RouteStop.phone_number stop); done).
  rewrite process_stops_app. unfold mbind at 1, M_bind at 1. rewrite Hpre.
  cbn [process_stops]. rewrite Ht. cbn [negb].
  unfold mbind, M_bind, lift.
  destruct Hraise as [-> | (status_message & -> & ->)]; done.
Qed.

Lemma process_stops_template_error_witness :
  process_stops sample_twilio
    (mkMessageTemplates (fun _ _ _ _ => Raise (OtherException "'default'"))
       (fun _ => Return "being processed"))
    (mkConfig false)
    ([] ++ cli_stop "stop-1" (Some "(555) 123-0001") :: []) [] []
  = (Raise (OtherException "'default'"), []).
Proof.
  apply (process_stops_template_error sample_twilio _ (mkConfig false) [] []
           (cli_stop "stop-1" (Some "(555) 123-0001"))
           (OtherException "'default'") [] [] [] []);
    [reflexivity|discriminate|].
  right. by exists "being processed".
Defined.

(** ** Checking the configuration *)

(** X18: [validate] returns exactly when each of the five credentials is
    set and not empty. Otherwise it raises, and its message lists the
    missing ones, a set but empty one included, in the order of
    [required_vars]. *)
Theorem validate_outcome (self : Settings.Config) :
  (Settings.validate self = Return tt
   ↔ truthy (Settings.easyroutes_client_id self) = true ∧
     truthy (Settings.easyroutes_client_secret self) = true ∧
     truthy (Settings.twilio_account_sid self) = true ∧
     truthy (Settings.twilio_auth_token self) = true ∧
     truthy (Settings.twilio_from_number self) = true) ∧
  (Settings.validate self ≠ Return tt →
   Settings.validate self
   = Raise (OtherException
              ("Missing required environment variables: " +:+
               Settings.repr_list (Settings.missing self)))) ∧
  (∀ var, var ∈ Settings.missing self
          ↔ var ∈ Settings.required_vars ∧
            truthy (Settings.getattr self var) = false) ∧
  Settings.missing self `sublist_of` Settings.required_vars.
Proof.
  split_and!.
  - unfold Settings.validate, Settings.missing, Settings.required_vars.
    cbn [List.filter]. unfold Settings.getattr. simpl bool_decide.
    cbn [negb].
    destruct (truthy (Settings.easyroutes_client_id self));
      destruct (truthy (Settings.easyroutes_client_secret self));
      destruct (truthy (Settings.twilio_account_sid self));
      destruct (truthy (Settings.twilio_auth_token self));
      destruct (truthy (Settings.twilio_from_number self));
      cbn [negb]; split; try done; intros (? & ? & ? & ? & ?); done.
  - unfold Settings.validate. by destruct (Settings.missing self).
  - intros var. unfold Settings.missing.
    rewrite !list_elem_of_In, filter_In, negb_true_iff. tauto.
  - apply List_filter_sublist.
Qed.

Lemma validate_outcome_witness :
  Settings.validate
    (Settings.mk (Some "id") (Some "") (Some "AC1") None (Some "+15550000000"))
  = Raise (OtherException
      "Missing required environment variables: ['easyroutes_client_secret', 'twilio_auth_token']").
Proof.
  destruct (validate_outcome
              (Settings.mk (Some "id") (Some "") (Some "AC1") None
                 (Some "+15550000000"))) as (_ & Hraise & _).
  rewrite Hraise; [reflexivity|discriminate].
Defined.

(** ** The form and the results table *)

Lemma js_or_nonempty (a : option string) (b : string) :
  b ≠ "" → js_or a b ≠ "".
Proof. unfold js_or. by destruct a as [[|c a]|]. Qed.

Lemma substring_nonempty (n m : nat) (s : string) :
  (n < String.length s)%nat → (0 < m)%nat → String.substring n m s ≠ "".
Proof.
  revert n. induction s as [|c s IH]; intros n Hn Hm; simpl in *; [lia|].
  destruct n as [|n]; [by destruct m; [lia|]|].
  apply IH; lia.
Qed.

Lemma slice_last_nonempty (n : nat) (s : string) :
  (0 < n)%nat → s ≠ "" → slice_last n s ≠ "".
Proof.
  intros Hn Hs. unfold slice_last. apply substring_nonempty; [|done].
  destruct s; [done|]. simpl. lia.
Qed.

(** X20: a submit makes one request, with the route number and the message
    of the form, and ends with loading off. After an answer that is ok the
    results are those of the answer, the error is empty and the preview is
    hidden; after any other answer, or none, earlier results are gone and
    an error text that is not empty is set. Results and an error are never
    left together; route number, message and preview data are untouched. *)
Theorem handleSubmit_outcome {R P : Type}
    (fetch : SMSForm.Call → SMSForm.Fetched (SMSForm.SendData R))
    (s : SMSForm.State R P) :
  let call := SMSForm.SendCall (SMSForm.routeNumber s) (SMSForm.message s) in
  let s' := fst (SMSForm.handleSubmit fetch s) in
  snd (SMSForm.handleSubmit fetch s) = [call] ∧
  SMSForm.loading s' = false ∧
  SMSForm.routeNumber s' = SMSForm.routeNumber s ∧
  SMSForm.message s' = SMSForm.message s ∧
  SMSForm.preview s' = SMSForm.preview s ∧
  (is_Some (SMSForm.results s') → SMSForm.error s' = "") ∧
  match fetch call with
  | SMSForm.Responded true data =>
      SMSForm.results s' = SMSForm.send_results data ∧
      SMSForm.error s' = "" ∧ SMSForm.showPreview s' = false
  | _ =>
      SMSForm.results s' = None ∧ SMSForm.error s' ≠ "" ∧
      SMSForm.showPreview s' = SMSForm.showPreview s
  end.
Proof.
  intros call s'. subst s'. unfold SMSForm.handleSubmit. fold call.
  destruct (fetch call) as [|[|] data]; simpl; split_and!; try done.
  by apply js_or_nonempty.
Qed.

(** X21: a preview never touches the results, the route number or the
    message. Without a route number it makes no request and only sets an
    error. Otherwise it makes one request and ends with loading off: after
    an answer that is ok the preview of the answer is shown and the error
    is empty; after any other answer, or none, an error text that is not
    empty is set and the earlier preview stays as it was, shown if it was
    shown. *)
Theorem handlePreview_outcome {R P : Type}
    (fetch : SMSForm.Call → SMSForm.Fetched (SMSForm.PreviewData P))
    (s : SMSForm.State R P) :
  let call := SMSForm.PreviewCall (SMSForm.routeNumber s) in
  let s' := fst (SMSForm.handlePreview fetch s) in
  SMSForm.results s' = SMSForm.results s ∧
  SMSForm.routeNumber s' = SMSForm.routeNumber s ∧
  SMSForm.message s' = SMSForm.message s ∧
  (SMSForm.routeNumber s = "" →
   snd (SMSForm.handlePreview fetch s) = [] ∧
   s' = SMSForm.setError "Please enter a route number first" s) ∧
  (SMSForm.routeNumber s ≠ "" →
   snd (SMSForm.handlePreview fetch s) = [call] ∧
   SMSForm.loading s' = false ∧
   match fetch call with
   | SMSForm.Responded true data =>
       SMSForm.preview s' = SMSForm.preview_preview data ∧
       SMSForm.showPreview s' = true ∧ SMSForm.error s' = ""
   | _ =>
       SMSForm.preview s' = SMSForm.preview s ∧
       SMSForm.showPreview s' = SMSForm.showPreview s ∧
       SMSForm.error s' ≠ ""
   end).
Proof.
  intros call s'. subst s'. unfold SMSForm.handlePreview. fold call.
  destruct (SMSForm.routeNumber s) as [|c number] eqn:Hnumber; simpl.
  - split_and!; try done.
  - destruct (fetch call) as [|[|] data]; simpl; split_and!; try done;
      intros _; split_and!; try done.
    by apply js_or_nonempty.
Qed.

Lemma handlePreview_outcome_witness :
  SMSForm.handlePreview (R := Results) (P := list string)
    (fun _ => SMSForm.Threw) SMSForm.initial
  = (SMSForm.setError "Please enter a route number first" SMSForm.initial, []).
Proof.
  destruct (handlePreview_outcome (R := Results) (P := list string)
              (fun _ => SMSForm.Threw) SMSForm.initial)
    as (_ & _ & _ & Hempty & _).
  destruct (Hempty eq_refl) as [Hcalls Hstate].
  destruct (SMSForm.handlePreview _ _) as [s' calls].
  simpl in *. by rewrite Hcalls, Hstate.
Defined.

(** X22: the rows of the results table for the entries of a run. The Phone
    cell is N/A exactly for a stop without phone number and otherwise three
    stars and the last four characters of the number; the badge is Sent
    exactly for a sent entry; the Details cell of a stop without phone
    number reads "No phone number", and the cell of any entry reads
    "Success" when its error text or message id is empty. *)
Theorem results_table_rows
    (twilio_client : TwilioSMSClient) (stops : list StopDict.t)
    (message : string) (w : World) :
  ∃ (results : Results) (wf : World),
    send_messages_to_stops twilio_client stops message w
    = (Return results, wf) ∧
    Forall2
      (fun stop d =>
         (ResultsTable.phone_cell d = "N/A" ↔ has_phone stop = false) ∧
         (∀ p, has_phone stop = true → StopDict.get_phone stop = Some p →
               ResultsTable.phone_cell d = "***" +:+ slice_last 4 p) ∧
         (ResultsTable.status_cell d = ResultsTable.Sent
          ↔ Detail.status d = "sent") ∧
         (has_phone stop = false →
          ResultsTable.details_cell d = "No phone number") ∧
         (Detail.error d = Some "" ∨ Detail.message_sid d = Some "" →
          ResultsTable.details_cell d = "Success"))
      stops (details results).
Proof.
  destruct (send_messages_loop_trace twilio_client message stops w)
    as (ds & Hds & Hrun).
  unfold send_messages_to_stops. rewrite Hrun.
  eexists _, _. split; [reflexivity|]. simpl.
  eapply Forall2_impl; [exact Hds|].
  intros stop d Hentry.
  assert (Hlast : ∀ p, has_phone stop = true →
            StopDict.get_phone stop = Some p → slice_last 4 p ≠ "").
  { intros p Hhas Hget. apply slice_last_nonempty; [lia|].
    unfold has_phone in Hhas. rewrite Hget in Hhas. by destruct p. }
  destruct Hentry as [Hno | p message_sid Hhas Hget | p error Hhas Hget].
  - rewrite Hno. split_and!; try done. by intros [[=] | [=]].
  - specialize (Hlast p Hhas Hget). rewrite Hhas.
    unfold ResultsTable.phone_cell, ResultsTable.details_cell. simpl.
    destruct (slice_last 4 p) as [|c l] eqn:Hslice; [done|]. simpl.
    split_and!; try done.
    + intros q _ Hq. rewrite Hget in Hq. injection Hq as <-.
      by rewrite Hslice.
    + by intros [[=] | [= ->]].
  - specialize (Hlast p Hhas Hget). rewrite Hhas.
    unfold ResultsTable.phone_cell, ResultsTable.details_cell. simpl.
    destruct (slice_last 4 p) as [|c l] eqn:Hslice; [done|]. simpl.
    split_and!; try done.
    + intros q _ Hq. rewrite Hget in Hq. injection Hq as <-.
      by rewrite Hslice.
    + by intros [[= ->] | [=]].
Qed.

(** * The same code on payloads with null *)

(** ** The two readings of the payload agree where there is no null *)

Lemma json_as_dict_of_dict (stop : StopDict.t) :
  Json.as_dict (Json.of_dict stop) = stop.
Proof. destruct stop as [i s [c|] a]; reflexivity. Qed.

Lemma json_get_phone_not_null (stop : Json.Stop) :
  Json.contact_is_null stop = false →
  Json.get_phone stop = Return (StopDict.get_phone (Json.as_dict stop)).
Proof.
  unfold Json.contact_is_null, Json.get_phone, StopDict.get_phone.
  simpl. by destruct (Json.contact stop).
Qed.

Lemma json_get_phone_null (stop : Json.Stop) :
  Json.contact_is_null stop = true →
  Json.get_phone stop
  = Raise (OtherException "'NoneType' object has no attribute 'get'").
Proof.
  unfold Json.contact_is_null, Json.get_phone.
  by destruct (Json.contact stop).
Qed.

Lemma json_of_dict_not_null (stop : StopDict.t) :
  Json.contact_is_null (Json.of_dict stop) = false.
Proof. unfold Json.contact_is_null. simpl. by destruct (StopDict.contact stop). Qed.

Section JsonLoop.
Variable twilio_client : TwilioSMSClient.
Variable message : string.

(** On stops without null contact the loop is the loop of the first
    reading. *)
Lemma json_send_messages_loop_not_null (stops : list Json.Stop)
    (results : Results) (w : World) :
  forallb (fun stop => negb (Json.contact_is_null stop)) stops = true →
  Json.send_messages_loop twilio_client stops message results w
  = send_messages_loop twilio_client (Json.as_dict <$> stops) message
      results w.
Proof.
  revert results w. induction stops as [|stop rest IH]; intros results w Hall;
    [done|].
  simpl in Hall. apply andb_true_iff in Hall as [Hstop Hrest].
  apply negb_true_iff in Hstop.
  cbn [Json.send_messages_loop fmap list_fmap send_messages_loop].
  unfold mbind at 1, M_bind at 1, lift at 1.
  rewrite (json_get_phone_not_null _ Hstop).
  change (StopDict.id (Json.as_dict stop)) with (Json.id stop).
  destruct (negb (truthy (StopDict.get_phone (Json.as_dict stop)))).
  - by apply IH.
  - unfold mbind, M_bind.
    destruct (try_send _ _ _ _ _ w) as [[r|e] w']; [by apply IH|done].
Qed.

Lemma json_send_messages_loop_of_dict (stops : list StopDict.t)
    (results : Results) (w : World) :
  Json.send_messages_loop twilio_client (Json.of_dict <$> stops) message
    results w
  = send_messages_loop twilio_client stops message results w.
Proof.
  rewrite json_send_messages_loop_not_null.
  - f_equal. induction stops as [|stop rest IH]; [done|].
    rewrite !fmap_cons, json_as_dict_of_dict. by f_equal.
  - induction stops as [|stop rest IH]; [done|].
    rewrite fmap_cons. cbn [forallb].
    by rewrite json_of_dict_not_null, IH.
Qed.

Lemma json_send_messages_loop_app (pre post : list Json.Stop)
    (results : Results) (w : World) :
  Json.send_messages_loop twilio_client (pre ++ post) message results w
  = (Json.send_messages_loop twilio_client pre message results
     ≫= Json.send_messages_loop twilio_client post message) w.
Proof.
  revert results w. induction pre as [|stop rest IH]; intros results w;
    [done|].
  cbn [app Json.send_messages_loop]. unfold mbind, M_bind, lift in *.
  destruct (Json.get_phone stop) as [phone_number|e]; [|done].
  destruct (negb (truthy phone_number)); [apply IH|].
  destruct (try_send _ _ _ _ _ w) as [[r|e] w']; [apply IH|done].
Qed.

(** A run of the loop: the entries of the stops it gets to, the requests
    for those of them that have a phone number, and an AttributeError in
    place of the results when a stop has a null contact. *)
Lemma json_send_messages_loop_trace (stops : list Json.Stop) (w : World) :
  ∃ ds : list Detail.t,
    Forall2 entry_of (Json.as_dict <$> Json.reached stops) ds ∧
    ∀ results,
      Json.send_messages_loop twilio_client stops message results w
      = (if existsb Json.contact_is_null stops
         then Raise (OtherException
                       "'NoneType' object has no attribute 'get'")
         else Return (extend results (List.length (List.filter is_sent ds))
                        (List.length (List.filter is_failed ds)) ds),
         w ++ ((fun p => request_for twilio_client p message)
                 <$> phone_numbers (Json.as_dict <$> Json.reached stops))).
Proof.
  revert w. induction stops as [|stop rest IH]; intros w.
  - exists []. split; [constructor|]. intros results.
    unfold extend. simpl. rewrite !Nat.add_0_r, !app_nil_r.
    by destruct results.
  - cbn [Json.send_messages_loop Json.reached existsb].
    destruct (Json.contact_is_null stop) eqn:Hnull.
    + exists []. split; [constructor|]. intros results.
      unfold mbind, M_bind, lift. rewrite (json_get_phone_null _ Hnull).
      simpl. by rewrite app_nil_r.
    + cbn [orb fmap list_fmap]. rewrite phone_numbers_cons.
      unfold mbind at 1, M_bind at 1, lift at 1.
      rewrite (json_get_phone_not_null _ Hnull).
      change (StopDict.id (Json.as_dict stop)) with (Json.id stop).
      fold (has_phone (Json.as_dict stop)).
      destruct (has_phone (Json.as_dict stop)) eqn:Hp; cbn [negb].
      * destruct (has_phone_Some _ Hp) as (p & Hget & Hne).
        rewrite Hget. cbn [default from_option id].
        destruct (IH (w ++ [request_for twilio_client p message]))
          as (ds & Hds & Hrun).
        destruct (messages_create twilio_client w
                    (request_for twilio_client p message)) as [m|e] eqn:Hc.
        -- eexists (_ :: ds). split.
           { constructor; [|exact Hds]. by apply (entry_sent _ p (sid m)). }
           intros results. unfold mbind, M_bind.
           rewrite (try_send_created _ _ _ _ _ _ _ Hc), Hrun.
           rewrite <- app_assoc. destruct (existsb _ rest); [done|].
           by rewrite extend_record_sent.
        -- eexists (_ :: ds). split.
           { constructor; [|exact Hds].
             by apply (entry_failed _ p (str e)). }
           intros results. unfold mbind, M_bind.
           rewrite (try_send_raised _ _ _ _ _ _ _ Hc), Hrun.
           rewrite <- app_assoc. destruct (existsb _ rest); [done|].
           by rewrite extend_record_failure.
      * destruct (IH w) as (ds & Hds & Hrun).
        eexists (_ :: ds). split.
        { constructor; [|exact Hds]. by apply entry_no_phone. }
        intros results. rewrite Hrun.
        change (StopDict.id (Json.as_dict stop)) with (Json.id stop).
        destruct (existsb _ rest); [done|].
        by rewrite extend_record_failure.
Qed.

(** What the run over some stops does is the same whatever the results it
    starts from. *)
Lemma json_send_messages_loop_uniform (stops : list Json.Stop) (w : World) :
  (∃ (ds : list Detail.t) (ns nf : nat) (wf : World),
     List.length ds = List.length stops ∧
     ∀ results,
       Json.send_messages_loop twilio_client stops message results w
       = (Return (extend results ns nf ds), wf)) ∨
  (∃ (e : Exception) (wf : World),
     ∀ results,
       Json.send_messages_loop twilio_client stops message results w
       = (Raise e, wf)).
Proof.
  destruct (json_send_messages_loop_trace stops w) as (ds & Hds & Hrun).
  destruct (existsb Json.contact_is_null stops) eqn:Hnull.
  - right. by eexists _, _.
  - left. eexists ds, _, _, _. split; [|exact Hrun].
    apply Forall2_length in Hds. rewrite <- Hds, length_fmap. f_equal.
    clear -Hnull. induction stops as [|stop rest IH]; [done|].
    simpl in *. apply orb_false_elim in Hnull as [-> Hrest].
    by rewrite IH.
Qed.
End JsonLoop.

Lemma json_reached_not_null (stops : list Json.Stop) :
  existsb Json.contact_is_null stops = false → Json.reached stops = stops.
Proof.
  induction stops as [|stop rest IH]; [done|]. simpl.
  intros [-> Hrest]%orb_false_elim. by rewrite IH.
Qed.

Lemma json_reached_app_null (pre post : list Json.Stop) (stop : Json.Stop) :
  existsb Json.contact_is_null pre = false →
  Json.contact_is_null stop = true →
  Json.reached (pre ++ stop :: post) = pre ∧
  existsb Json.contact_is_null (pre ++ stop :: post) = true.
Proof.
  intros Hpre Hnull. induction pre as [|s pre IH]; simpl in *.
  - by rewrite Hnull.
  - apply orb_false_elim in Hpre as [-> Hpre].
    destruct (IH Hpre) as [-> ->]. done.
Qed.

(** ** One entry per stop, and where the run has none *)

Lemma json_id_as_dict (stops : list Json.Stop) :
  StopDict.id <$> (Json.as_dict <$> stops) = Json.id <$> stops.
Proof. by rewrite <- list_fmap_compose. Qed.

(** C2, with its failing input: on stops none of which has a null contact
    the run returns one entry per stop, in the order of the stops, with
    messages_sent + failures the number of stops, and the example of the
    three stops gives 1, 2 and three entries. A stop whose contact key
    holds null ends the run with an AttributeError raised before the [try]:
    no result is returned, the later stops are not processed, and the
    messages of the stops before it have been sent. *)
Theorem C2_null_contact_ends_the_run
    (twilio_client : TwilioSMSClient) (message : string) (w : World) :
  (∀ stops : list Json.Stop,
     existsb Json.contact_is_null stops = false →
     ∃ (results : Results) (wf : World),
       Json.send_messages_to_stops twilio_client stops message w
       = (Return results, wf) ∧
       List.length (details results) = List.length stops ∧
       Detail.stop_id <$> details results = Json.id <$> stops ∧
       messages_sent results + failures results = List.length stops ∧
       total_stops results = List.length stops) ∧
  (∀ (A B C : Json.Stop) (pB pC : string) (mB : Message),
     let reqB := request_for twilio_client pB message in
     let reqC := request_for twilio_client pC message in
     Json.get_phone A = Return None →
     Json.get_phone B = Return (Some pB) → pB ≠ "" →
     Json.get_phone C = Return (Some pC) → pC ≠ "" →
     messages_create twilio_client w reqB = Return mB →
     messages_create twilio_client (w ++ [reqB]) reqC
     = Raise (TwilioException "InvalidNumber") →
     Json.send_messages_to_stops twilio_client [A; B; C] message w
     = (Return (mkResults 3 1 2
          [Detail.mk (Json.id A) "failed" (Some "No phone number") None None;
           Detail.mk (Json.id B) "sent" None
             (Some (slice_last 4 pB)) (Some (sid mB));
           Detail.mk (Json.id C) "failed" (Some "InvalidNumber")
             (Some (slice_last 4 pC)) None]),
        w ++ [reqB; reqC])) ∧
  (∀ (pre post : list Json.Stop) (stop : Json.Stop),
     existsb Json.contact_is_null pre = false →
     Json.contact stop = Null →
     Json.send_messages_to_stops twilio_client (pre ++ stop :: post) message w
     = (Raise (OtherException "'NoneType' object has no attribute 'get'"),
        w ++ ((fun p => request_for twilio_client p message)
                <$> phone_numbers (Json.as_dict <$> pre)))).
Proof.
  split_and!.
  - intros stops Hnull. unfold Json.send_messages_to_stops.
    rewrite json_send_messages_loop_not_null.
    2:{ clear -Hnull. induction stops as [|stop rest IH]; [done|].
        simpl in *. apply orb_false_elim in Hnull as [-> Hrest].
        by rewrite IH. }
    destruct (send_messages_loop_spec twilio_client message
                (Json.as_dict <$> stops) w)
      as (ds & ns & nf & wf & Hl & Hi & Hn & Hrun).
    rewrite Hrun. rewrite length_fmap in Hl, Hn.
    rewrite json_id_as_dict in Hi.
    eexists _, _. split; [reflexivity|]. by simpl.
  - intros A B C pB pC mB reqB reqC HA HB HpB HC HpC HcB HcC.
    unfold Json.send_messages_to_stops. cbn [Json.send_messages_loop].
    unfold mbind, M_bind, lift. rewrite HA, HB, HC.
    destruct pB as [|b pB']; [done|]. destruct pC as [|c pC']; [done|].
    cbn [truthy negb default from_option id].
    rewrite (try_send_created _ _ _ _ _ _ _ HcB).
    rewrite (try_send_raised _ _ _ _ _ _ _ HcC).
    unfold mret, M_ret. by rewrite <- app_assoc.
  - intros pre post stop Hpre Hnull.
    assert (Hstop : Json.contact_is_null stop = true)
      by (unfold Json.contact_is_null; by rewrite Hnull).
    destruct (json_reached_app_null pre post stop Hpre Hstop)
      as [Hreached Hexists].
    destruct (json_send_messages_loop_trace twilio_client message
                (pre ++ stop :: post) w) as (ds & _ & Hrun).
    unfold Json.send_messages_to_stops.
    by rewrite Hrun, Hexists, Hreached.
Qed.

Lemma C2_null_contact_ends_the_run_witness :
  Json.send_messages_to_stops sample_twilio
    ([Json.of_dict stop_B] ++ stop_null :: [Json.of_dict stop_D])
    "Running late" []
  = (Raise (OtherException "'NoneType' object has no attribute 'get'"),
     [mkSendRequest "Running late" "+15550000000" "+15551230001"]).
Proof.
  destruct (C2_null_contact_ends_the_run sample_twilio "Running late" [])
    as (_ & _ & Hnull).
  apply (Hnull [Json.of_dict stop_B] [Json.of_dict stop_D] stop_null);
    reflexivity.
Defined.

(** ** Failures of the provider *)

(** C3, as the code has it: when the provider fails on the send for a stop,
    [send_message] returns a failure result if the exception is the
    provider's own and raises it otherwise; in both cases the loop records
    one failed entry for the stop and goes on with the stops after it, from
    the state reached; where none of them has a null contact, their entries
    are those of their own run and the run returns them all. *)
Theorem C3_provider_failure_is_local
    (twilio_client : TwilioSMSClient) (message : string)
    (pre post : list Json.Stop) (stop : Json.Stop) (p : string)
    (e : Exception) (results r1 : Results) (w w1 : World) :
  let req := request_for twilio_client p message in
  let failed := Detail.mk (Json.id stop) "failed" (Some (str e))
                  (Some (slice_last 4 p)) None in
  Json.get_phone stop = Return (Some p) → p ≠ "" →
  Json.send_messages_loop twilio_client pre message results w
  = (Return r1, w1) →
  messages_create twilio_client w1 req = Raise e →
  send_message twilio_client p message w1
  = (if is_TwilioException e
     then Return (SendFailure (str e) p) else Raise e, w1 ++ [req]) ∧
  Json.send_messages_loop twilio_client (pre ++ stop :: post) message
    results w
  = Json.send_messages_loop twilio_client post message
      (record_failure r1 failed) (w1 ++ [req]) ∧
  (existsb Json.contact_is_null post = false →
   ∃ (ds : list Detail.t) (ns nf : nat) (wf : World),
     List.length ds = List.length post ∧
     Detail.stop_id <$> ds = Json.id <$> post ∧
     ns + nf = List.length post ∧
     (∀ r, Json.send_messages_loop twilio_client post message r (w1 ++ [req])
           = (Return (extend r ns nf ds), wf)) ∧
     Json.send_messages_loop twilio_client (pre ++ stop :: post) message
       results w
     = (Return (extend r1 ns (S nf) (failed :: ds)), wf)).
Proof.
  intros req failed Hp Hne Hpre Hc.
  assert (Hstep :
    Json.send_messages_loop twilio_client (pre ++ stop :: post) message
      results w
    = Json.send_messages_loop twilio_client post message
        (record_failure r1 failed) (w1 ++ [req])).
  { rewrite json_send_messages_loop_app. unfold mbind at 1, M_bind at 1.
    rewrite Hpre. cbn [Json.send_messages_loop].
    unfold mbind, M_bind, lift. rewrite Hp.
    destruct p as [|c p']; [done|].
    cbn [truthy negb default from_option id].
    change (StopDict.id (Json.as_dict stop)) with (Json.id stop).
    by rewrite (try_send_raised _ _ _ _ _ _ _ Hc). }
  split_and!.
  - by rewrite (send_message_raised _ _ _ _ _ Hc).
  - exact Hstep.
  - intros Hpost.
    assert (Hall : forallb (fun s => negb (Json.contact_is_null s)) post = true).
    { clear -Hpost. induction post as [|s rest IH]; [done|].
      simpl in *. apply orb_false_elim in Hpost as [-> Hrest].
      by rewrite IH. }
    destruct (send_messages_loop_spec twilio_client message
                (Json.as_dict <$> post) (w1 ++ [req]))
      as (ds & ns & nf & wf & Hl & Hi & Hn & Hrun).
    exists ds, ns, nf, wf. rewrite length_fmap in Hl, Hn.
    rewrite json_id_as_dict in Hi.
    assert (Hrun' : ∀ r,
      Json.send_messages_loop twilio_client post message r (w1 ++ [req])
      = (Return (extend r ns nf ds), wf)).
    { intros r. by rewrite json_send_messages_loop_not_null. }
    split_and!; try done.
    by rewrite Hstep, Hrun', extend_record_failure.
Qed.

Lemma C3_provider_failure_is_local_witness :
  send_message broken_twilio "(555) 123-0002" "Running late"
    [mkSendRequest "Running late" "+15550000000" "+15551230001"]
  = (Raise (OtherException "Connection reset"),
     [mkSendRequest "Running late" "+15550000000" "+15551230001";
      mkSendRequest "Running late" "+15550000000" "+15551230002"]) ∧
  Json.send_messages_loop sample_twilio
    ([Json.of_dict stop_B] ++ Json.of_dict stop_C :: [Json.of_dict stop_D])
    "Running late" (mkResults 3 0 0 []) []
  = Json.send_messages_loop sample_twilio [Json.of_dict stop_D]
      "Running late"
      (record_failure
         (mkResults 3 1 0
            [Detail.mk "stop-B" "sent" None (Some "0001") (Some "SM0001")])
         (Detail.mk "stop-C" "failed" (Some "InvalidNumber") (Some "0002")
            None))
      [mkSendRequest "Running late" "+15550000000" "+15551230001";
       mkSendRequest "Running late" "+15550000000" "+15551230002"].
Proof.
  split.
  - apply (C3_provider_failure_is_local broken_twilio "Running late"
             [] [] (Json.of_dict stop_C) "(555) 123-0002"
             (OtherException "Connection reset") (mkResults 3 0 0 [])
             (mkResults 3 0 0 [])
             [mkSendRequest "Running late" "+15550000000" "+15551230001"]
             [mkSendRequest "Running late" "+15550000000" "+15551230001"]);
      (reflexivity || discriminate).
  - apply (C3_provider_failure_is_local sample_twilio "Running late"
             [Json.of_dict stop_B] [Json.of_dict stop_D] (Json.of_dict stop_C)
             "(555) 123-0002" (TwilioException "InvalidNumber")
             (mkResults 3 0 0 [])
             (mkResults 3 1 0
                [Detail.mk "stop-B" "sent" None (Some "0001") (Some "SM0001")])
             []
             [mkSendRequest "Running late" "+15550000000" "+15551230001"]);
      (reflexivity || discriminate).
Defined.

(** The send for a stop with a phone number, with a provider whose
    connection drops: [send_message] raises, it returns no failure
    result. *)
Lemma C3_counterexample :
  StopDict.get_phone stop_B = Some "(555) 123-0001" ∧
  send_message broken_twilio "(555) 123-0001" "Running late" []
  = (Raise (OtherException "Connection reset"),
     [mkSendRequest "Running late" "+15550000000" "+15551230001"]) ∧
  ¬ ∃ result : SendResult,
      fst (send_message broken_twilio "(555) 123-0001" "Running late" [])
      = Return result.
Proof.
  split_and!; [reflexivity|reflexivity|].
  intros [result Hresult]. discriminate Hresult.
Qed.

(** ** Stops without a phone number, on payloads with null *)

(** C4, as the code has it: a stop whose contact is missing, or is an
    object whose phone is missing or empty, causes no request to the
    provider. In the web handler the requests of a run are those of the run
    without the stop, and where that run returns its results, the run with
    the stop returns them with one more entry at the place of the stop,
    failed with the error "No phone number" and no phone, counted in the
    failures; the command-line tool passes over the stop and records
    nothing for it. *)
Theorem C4_no_phone_is_not_dispatched
    (twilio_client : TwilioSMSClient) (message : string)
    (pre post : list Json.Stop) (stop : Json.Stop)
    (phone_number : option string) (w : World)
    (templates : MessageTemplates) (config : Config)
    (cpre cpost : list RouteStop.t) (cstop : RouteStop.t)
    (cresults : list SendResult) :
  Json.get_phone stop = Return phone_number →
  truthy phone_number = false →
  truthy (phone (RouteStop.contact cstop)) = false →
  snd (Json.send_messages_to_stops twilio_client (pre ++ stop :: post)
         message w)
  = snd (Json.send_messages_to_stops twilio_client (pre ++ post) message w) ∧
  (∀ (results : Results) (wf : World),
     Json.send_messages_to_stops twilio_client (pre ++ post) message w
     = (Return results, wf) →
     ∃ d1 d2 : list Detail.t,
       List.length d1 = List.length pre ∧
       details results = d1 ++ d2 ∧
       Json.send_messages_to_stops twilio_client (pre ++ stop :: post)
         message w
       = (Return (mkResults (S (total_stops results))
                    (messages_sent results) (S (failures results))
                    (d1 ++
                     Detail.mk (Json.id stop) "failed"
                       (Some "No phone number") None None :: d2)), wf)) ∧
  process_stops twilio_client templates config
    (cpre ++ cstop :: cpost) cresults w
  = process_stops twilio_client templates config (cpre ++ cpost) cresults w.
Proof.
  intros Hget Hfalsy Hcli.
  assert (Hstep : ∀ r w1,
    Json.send_messages_loop twilio_client (stop :: post) message r w1
    = Json.send_messages_loop twilio_client post message
        (record_failure r
           (Detail.mk (Json.id stop) "failed" (Some "No phone number")
              None None)) w1).
  { intros r w1. cbn [Json.send_messages_loop].
    unfold mbind, M_bind, lift. by rewrite Hget, Hfalsy. }
  unfold Json.send_messages_to_stops.
  rewrite !length_app. cbn [List.length].
  set (n := List.length pre + List.length post).
  replace (List.length pre + S (List.length post)) with (S n) by (subst n; lia).
  rewrite !json_send_messages_loop_app. unfold mbind, M_bind.
  destruct (json_send_messages_loop_uniform twilio_client message pre w)
    as [(d1 & ns1 & nf1 & w1 & Hl1 & Hpre) | (e & w1 & Hpre)];
    rewrite !Hpre; [|split_and!; try done].
  - rewrite Hstep.
    destruct (json_send_messages_loop_uniform twilio_client message post w1)
      as [(d2 & ns2 & nf2 & wf & Hl2 & Hpost) | (e & wf & Hpost)];
      rewrite !Hpost; [|split_and!; try done].
    + split_and!; [done| |].
      * intros results wf' [= <- <-]. exists d1, d2.
        split_and!; [done|done|].
        unfold extend, record_failure. simpl.
        rewrite <- !app_assoc. simpl. repeat (f_equal; try lia).
      * apply process_stops_skip. unfold RouteStop.phone_number.
        destruct (phone (RouteStop.contact cstop)) as [[|c p]|]; done.
    + apply process_stops_skip. unfold RouteStop.phone_number.
      destruct (phone (RouteStop.contact cstop)) as [[|c p]|]; done.
  - apply process_stops_skip. unfold RouteStop.phone_number.
    destruct (phone (RouteStop.contact cstop)) as [[|c p]|]; done.
Qed.

Lemma C4_no_phone_is_not_dispatched_witness :
  Json.send_messages_to_stops sample_twilio
    ([Json.of_dict stop_B] ++ Json.of_dict stop_A :: [Json.of_dict stop_D])
    "Running late" []
  = (Return (mkResults 3 2 1
       ([Detail.mk "stop-B" "sent" None (Some "0001") (Some "SM0001")] ++
        Detail.mk "stop-A" "failed" (Some "No phone number") None None ::
        [Detail.mk "stop-D" "sent" None (Some "0003") (Some "SM0001")])),
     [mkSendRequest "Running late" "+15550000000" "+15551230001";
      mkSendRequest "Running late" "+15550000000" "+15551230003"]) ∧
  process_stops sample_twilio sample_templates (mkConfig false)
    ([cli_stop "stop-1" (Some "(555) 123-0001")] ++
     cli_stop "stop-2" None :: [cli_stop "stop-3" (Some "(555) 123-0003")])
    [] []
  = process_stops sample_twilio sample_templates (mkConfig false)
      ([cli_stop "stop-1" (Some "(555) 123-0001")] ++
       [cli_stop "stop-3" (Some "(555) 123-0003")])
      [] [].
Proof.
  destruct (C4_no_phone_is_not_dispatched sample_twilio "Running late"
              [Json.of_dict stop_B] [Json.of_dict stop_D]
              (Json.of_dict stop_A) None [] sample_templates (mkConfig false)
              [cli_stop "stop-1" (Some "(555) 123-0001")]
              [cli_stop "stop-3" (Some "(555) 123-0003")]
              (cli_stop "stop-2" None) [] eq_refl eq_refl eq_refl)
    as (_ & Hweb & Hcli).
  split; [|exact Hcli].
  destruct (Hweb
    (mkResults 2 2 0
       [Detail.mk "stop-B" "sent" None (Some "0001") (Some "SM0001");
        Detail.mk "stop-D" "sent" None (Some "0003") (Some "SM0001")])
    [mkSendRequest "Running late" "+15550000000" "+15551230001";
     mkSendRequest "Running late" "+15550000000" "+15551230003"] eq_refl)
    as (d1 & d2 & Hl & Hd & Hrun).
  rewrite Hrun. simpl in Hd.
  destruct d1 as [|x [|y d1]]; try discriminate Hl.
  injection Hd as <- <-. reflexivity.
Defined.

(** ** The web handler's loop on payloads with null *)

Lemma json_forallb_not_null (stops : list Json.Stop) :
  existsb Json.contact_is_null stops = false →
  forallb (fun stop => negb (Json.contact_is_null stop)) stops = true.
Proof.
  induction stops as [|stop rest IH]; [done|]. simpl.
  intros [-> Hrest]%orb_false_elim. by rewrite IH.
Qed.

(** X4: the provider receives one request for each stop that has a phone
    number among the stops before the first one whose contact is null, all
    the stops when there is none, in their order, each with the message
    unchanged, the client's number and the normalized number of the stop;
    it receives none for the other stops. *)
Theorem send_messages_to_stops_requests
    (twilio_client : TwilioSMSClient) (stops : list Json.Stop)
    (message : string) (w : World) :
  snd (Json.send_messages_to_stops twilio_client stops message w)
  = w ++ ((fun p => mkSendRequest message (from_number twilio_client)
                      (_format_phone_number p))
            <$> phone_numbers (Json.as_dict <$> Json.reached stops)) ∧
  (existsb Json.contact_is_null stops = false → Json.reached stops = stops).
Proof.
  destruct (json_send_messages_loop_trace twilio_client message stops w)
    as (ds & _ & Hrun).
  unfold Json.send_messages_to_stops. rewrite Hrun.
  split; [done|apply json_reached_not_null].
Qed.

Lemma send_messages_to_stops_requests_witness :
  Json.reached [Json.of_dict stop_A; Json.of_dict stop_B]
  = [Json.of_dict stop_A; Json.of_dict stop_B].
Proof.
  apply (send_messages_to_stops_requests sample_twilio
           [Json.of_dict stop_A; Json.of_dict stop_B] "Running late" []).
  reflexivity.
Defined.

(** X5: the run returns its results exactly when no stop has a null
    contact. Then every stop has its entry, of one of three kinds: failed
    with "No phone number" and no phone for a stop without phone number,
    sent with the message id and no error, or failed with the error text
    and no message id, the last two with the last four characters of the
    number; messages_sent is the number of sent entries, failures the
    number of failed entries, total_stops the number of stops. Otherwise
    the run raises an AttributeError and returns nothing. *)
Theorem send_messages_to_stops_entries
    (twilio_client : TwilioSMSClient) (stops : list Json.Stop)
    (message : string) (w : World) :
  (existsb Json.contact_is_null stops = false →
   ∃ (results : Results) (wf : World),
     Json.send_messages_to_stops twilio_client stops message w
     = (Return results, wf) ∧
     Forall2 entry_of (Json.as_dict <$> stops) (details results) ∧
     messages_sent results
     = List.length (List.filter is_sent (details results)) ∧
     failures results
     = List.length (List.filter is_failed (details results)) ∧
     total_stops results = List.length stops) ∧
  (existsb Json.contact_is_null stops = true →
   fst (Json.send_messages_to_stops twilio_client stops message w)
   = Raise (OtherException "'NoneType' object has no attribute 'get'")).
Proof.
  destruct (json_send_messages_loop_trace twilio_client message stops w)
    as (ds & Hds & Hrun).
  unfold Json.send_messages_to_stops. rewrite Hrun. split.
  - intros Hnull. rewrite Hnull.
    rewrite (json_reached_not_null _ Hnull) in Hds.
    eexists _, _. split; [reflexivity|]. by simpl.
  - by intros ->.
Qed.

Lemma send_messages_to_stops_entries_witness :
  fst (Json.send_messages_to_stops sample_twilio
         [Json.of_dict stop_B; stop_null] "Running late" [])
  = Raise (OtherException "'NoneType' object has no attribute 'get'").
Proof.
  apply (send_messages_to_stops_entries sample_twilio
           [Json.of_dict stop_B; stop_null] "Running late" []).
  reflexivity.
Defined.

(** X6: on stops none of which has a null contact, with a provider that
    accepts every request, messages_sent is the number of stops with a
    phone number and failures the number of stops without; with a provider
    that refuses every request, whatever it raises, nothing is sent and
    every stop is a failure. *)
Theorem send_messages_to_stops_uniform_provider
    (twilio_client : TwilioSMSClient) (stops : list Json.Stop)
    (message : string) (w : World) (accepts : bool) :
  existsb Json.contact_is_null stops = false →
  (∀ w req, if accepts
            then ∃ m, messages_create twilio_client w req = Return m
            else ∃ e, messages_create twilio_client w req = Raise e) →
  ∃ (results : Results) (wf : World),
    Json.send_messages_to_stops twilio_client stops message w
    = (Return results, wf) ∧
    messages_sent results
    = (if accepts
       then List.length
              (List.filter (fun stop => has_phone (Json.as_dict stop)) stops)
       else 0) ∧
    failures results
    = (if accepts
       then List.length
              (List.filter (fun stop => negb (has_phone (Json.as_dict stop)))
                 stops)
       else List.length stops).
Proof.
  intros Hnull Hall. unfold Json.send_messages_to_stops.
  rewrite json_send_messages_loop_not_null
    by by apply json_forallb_not_null.
  destruct (send_messages_loop_uniform twilio_client message accepts
              (Json.as_dict <$> stops) Hall
              (mkResults (List.length stops) 0 0 []) w)
    as (results & wf & Hrun & Hs & Hf).
  exists results, wf. split; [exact Hrun|].
  rewrite Hs, Hf. unfold phone_numbers. rewrite !length_fmap. simpl.
  assert (Hfilter :
    List.length (List.filter has_phone (Json.as_dict <$> stops))
    = List.length
        (List.filter (fun stop => has_phone (Json.as_dict stop)) stops)).
  { clear. induction stops as [|stop rest IH]; [done|].
    rewrite fmap_cons. simpl. destruct (has_phone (Json.as_dict stop));
      simpl; by rewrite IH. }
  rewrite Hfilter. split; [done|]. destruct accepts; [|done].
  pose proof (List.filter_length
                (fun stop => has_phone (Json.as_dict stop)) stops) as Hlen.
  cbv beta in Hlen. lia.
Qed.

Lemma send_messages_to_stops_uniform_provider_witness :
  ∃ (results : Results) (wf : World),
    Json.send_messages_to_stops broken_twilio
      [Json.of_dict stop_A; Json.of_dict stop_B; Json.of_dict stop_C]
      "Running late" []
    = (Return results, wf) ∧
    messages_sent results = 0 ∧ failures results = 3.
Proof.
  apply (send_messages_to_stops_uniform_provider broken_twilio
           [Json.of_dict stop_A; Json.of_dict stop_B; Json.of_dict stop_C]
           "Running late" [] false); [reflexivity|].
  intros w req. by eexists.
Defined.

(** ** The handler on payloads with null *)

Lemma json_get_incomplete_stops_loop_filter (stops acc : list Json.Stop) :
  Json.get_incomplete_stops_loop stops acc
  = acc ++ filter Json.incomplete stops.
Proof.
  revert acc. induction stops as [|stop rest IH]; intros acc; simpl.
  - by rewrite app_nil_r.
  - rewrite filter_cons. fold (Json.incomplete stop).
    case_bool_decide as Hs.
    + rewrite decide_True by done. rewrite IH, <- app_assoc. reflexivity.
    + rewrite decide_False by done. apply IH.
Qed.

Lemma json_get_incomplete_stops_loop_of_dict (stops acc : list StopDict.t) :
  Json.get_incomplete_stops_loop (Json.of_dict <$> stops)
    (Json.of_dict <$> acc)
  = Json.of_dict <$> get_incomplete_stops_loop stops acc.
Proof.
  revert acc. induction stops as [|stop rest IH]; intros acc; [done|].
  rewrite fmap_cons. cbn [Json.get_incomplete_stops_loop
                            get_incomplete_stops_loop].
  change (Json.deliveryStatus (Json.of_dict stop))
    with (StopDict.deliveryStatus stop).
  case_bool_decide; [|apply IH].
  rewrite <- IH. by rewrite fmap_app.
Qed.

Section JsonSendSms.
Variable session : Session.
Variable easyroutes : Json.EasyRoutesClient.
Variable twilio : TwilioSMSClient.

(** The handler, one answer per path through the code. *)
Lemma json_send_sms_paths (data : RequestData) (w : World) :
  let number := default "" (route_number data) in
  let text := default "" (message data) in
  Json.send_sms session easyroutes twilio data w
  = if negb (authenticated session) then
      (Return (mkResponse (ErrorBody "Authentication required") 401), w)
    else if negb (truthy (route_number data)) || negb (truthy (message data))
    then
      (Return (mkResponse
                 (ErrorBody "Route number and message are required") 400), w)
    else if (160 <? String.length text)%nat then
      (Return (mkResponse
                 (ErrorBody "Message too long (max 160 characters)") 400), w)
    else
      match Json.get_route_by_number easyroutes number with
      | Raise e => (Return (mkResponse (ErrorBody (str e)) 500), w)
      | Return None =>
          (Return (mkResponse
                     (ErrorBody ("Route " +:+ number +:+ " not found")) 404),
           w)
      | Return (Some route) =>
          match Json.get_route easyroutes (Json.route_id route) with
          | Raise e => (Return (mkResponse (ErrorBody (str e)) 500), w)
          | Return fetched =>
              match Json.stops fetched with
              | Null =>
                  (Return (mkResponse
                     (ErrorBody "'NoneType' object is not iterable") 500), w)
              | stops_field =>
                  match filter Json.incomplete
                          (match stops_field with
                           | Present l => l
                           | _ => []
                           end) with
                  | [] =>
                      (Return (mkResponse
                         (NoStopsBody
                            "No incomplete stops found for this route"
                            (mkResults 0 0 0 [])) 200), w)
                  | stop :: rest =>
                      match Json.send_messages_to_stops twilio (stop :: rest)
                              text w with
                      | (Return results, w') =>
                          (Return (mkResponse (ResultsBody results) 200), w')
                      | (Raise e, w') =>
                          (Return (mkResponse (ErrorBody (str e)) 500), w')
                      end
                  end
              end
          end
      end.
Proof.
  intros number text. unfold Json.send_sms, require_auth, try_except.
  destruct (authenticated session); [|reflexivity]. cbn [negb].
  destruct (negb (truthy (route_number data)) || negb (truthy (message data)));
    [reflexivity|].
  fold number text. destruct (160 <? String.length text)%nat; [reflexivity|].
  unfold mbind, M_bind, lift, Json.get_incomplete_stops.
  destruct (Json.get_route_by_number easyroutes number) as [[route|]|e];
    try reflexivity.
  unfold mbind, M_bind, lift.
  destruct (Json.get_route easyroutes (Json.route_id route)) as [fetched|e];
    [|reflexivity].
  destruct (Json.stops fetched) as [| |l]; try reflexivity.
  unfold mret at 1, M_ret at 1.
  rewrite json_get_incomplete_stops_loop_filter, app_nil_l.
  destruct (filter Json.incomplete l) as [|stop rest]; [reflexivity|].
  destruct (Json.send_messages_to_stops twilio (stop :: rest) text w)
    as [[results|e] w']; reflexivity.
Qed.
End JsonSendSms.

(** On a backend whose payloads hold no null the handler is the handler of
    the first reading. *)
Lemma json_send_sms_of_client
    (session : Session) (easyroutes : EasyRoutesClient)
    (twilio : TwilioSMSClient) (data : RequestData) (w : World) :
  Json.send_sms session (json_of_client easyroutes) twilio data w
  = send_sms session easyroutes twilio data w.
Proof.
  rewrite json_send_sms_paths, send_sms_paths. cbv zeta.
  destruct (negb (authenticated session)); [done|].
  destruct (_ || _); [done|]. destruct (_ <? _)%nat; [done|].
  cbn [json_of_client Json.get_route_by_number Json.get_route].
  destruct (get_route_by_number easyroutes _) as [[route|]|e]; try done.
  change (Json.of_route <$> Some route) with (Some (Json.of_route route)).
  cbn [Json.of_route Json.route_id].
  destruct (get_route easyroutes (RouteDict.id route)) as [fetched|e];
    [|done].
  cbn [Json.of_route Json.stops].
  rewrite get_incomplete_stops_loop_filter, app_nil_l.
  assert (Hfilter : ∀ l : list StopDict.t,
    filter Json.incomplete (Json.of_dict <$> l)
    = Json.of_dict <$> filter incomplete l).
  { intros l.
    pose proof (json_get_incomplete_stops_loop_of_dict l []) as Hl.
    by rewrite json_get_incomplete_stops_loop_filter,
      get_incomplete_stops_loop_filter in Hl. }
  assert (Hrun : ∀ l,
    Json.send_messages_to_stops twilio (Json.of_dict <$> l)
      (default "" (message data)) w
    = send_messages_to_stops twilio l (default "" (message data)) w).
  { intros l. unfold Json.send_messages_to_stops, send_messages_to_stops.
    by rewrite json_send_messages_loop_of_dict, length_fmap. }
  destruct (RouteDict.stops fetched) as [l|]; simpl; [|done].
  rewrite Hfilter.
  destruct (filter incomplete l) as [|stop rest]; [done|].
  rewrite fmap_cons, <- (fmap_cons Json.of_dict). by rewrite Hrun.
Qed.

(** Membership of a status code in a list of codes, and its refutation. *)
Ltac in_codes :=
  repeat first [apply list_elem_of_here | apply list_elem_of_further].

Ltac not_in_codes H :=
  repeat (apply elem_of_cons in H as [H|H]; [discriminate H|]);
  by apply elem_of_nil in H.

(** X8: the handler always answers and never raises, whatever the backend
    and the provider do and whatever null the payload holds; the status is
    200, 400, 401, 404 or 500, and with 400, 401 or 404 no request went to
    the provider. A 500 can come after requests: for a route whose second
    stop has a null contact the message of the first stop is sent and the
    answer is 500. *)
Theorem send_sms_always_answers
    (session : Session) (easyroutes : Json.EasyRoutesClient)
    (twilio : TwilioSMSClient) (data : RequestData) (w : World) :
  (∃ (response : Response) (w' : World),
     Json.send_sms session easyroutes twilio data w = (Return response, w') ∧
     status_code response ∈ [200; 400; 401; 404; 500] ∧
     (status_code response ∈ [400; 401; 404] → w' = w)) ∧
  Json.send_sms (mkSession true) json_easyroutes sample_twilio
    (mkRequestData (Some "RT-6") (Some "Running late")) []
  = (Return (mkResponse
       (ErrorBody "'NoneType' object has no attribute 'get'") 500),
     [mkSendRequest "Running late" "+15550000000" "+15551230001"]).
Proof.
  split; [|reflexivity].
  rewrite json_send_sms_paths.
  destruct (negb (authenticated session));
    [eexists _, _; split; [reflexivity|]; simpl; split; [in_codes|done]|].
  destruct (_ || _);
    [eexists _, _; split; [reflexivity|]; simpl; split; [in_codes|done]|].
  destruct (_ <? _)%nat;
    [eexists _, _; split; [reflexivity|]; simpl; split; [in_codes|done]|].
  destruct (Json.get_route_by_number _ _) as [[route|]|e];
    try (eexists _, _; split; [reflexivity|]; simpl; split; [in_codes|done]).
  destruct (Json.get_route _ _) as [fetched|e];
    try (eexists _, _; split; [reflexivity|]; simpl; split; [in_codes|done]).
  destruct (Json.stops fetched) as [| |l];
    try (eexists _, _; split; [reflexivity|]; simpl; split; [in_codes|done]).
  destruct (filter Json.incomplete l) as [|stop rest];
    [eexists _, _; split; [reflexivity|]; simpl; split; [in_codes|done]|].
  destruct (Json.send_messages_to_stops twilio (stop :: rest) _ w)
    as [[results|e] w'];
    (eexists _, _; split; [reflexivity|]; simpl; split;
       [in_codes|intros Hin; not_in_codes Hin]).
Qed.

Lemma send_sms_always_answers_witness :
  ∃ (response : Response) (w' : World),
    Json.send_sms (mkSession true) json_easyroutes sample_twilio
      (mkRequestData (Some "RT-9") (Some "Running late")) []
    = (Return response, w') ∧
    status_code response = 404 ∧ w' = [].
Proof.
  destruct (send_sms_always_answers (mkSession true) json_easyroutes
              sample_twilio
              (mkRequestData (Some "RT-9") (Some "Running late")) [])
    as [(response & w' & Hrun & _ & Hsame) _].
  exists response, w'. split; [exact Hrun|].
  assert (Hcode : status_code response = 404)
    by (vm_compute in Hrun; by injection Hrun as <- _).
  split; [exact Hcode|]. apply Hsame. rewrite Hcode. in_codes.
Defined.

(** X11: a logged-in request with a route number, a message of at most 160
    characters and a route the backend knows, whose stops key does not hold
    null. If no stop of the fetched route that is not DELIVERED has a null
    contact, the answer is 200, one request went to each of those stops
    that has a phone number, in the route's order, and the results hold an
    entry for each of them and none for a DELIVERED stop. If one of them
    has a null contact, the answer is 500 with the text of the
    AttributeError, after the requests for the stops before it. *)
Theorem send_sms_success
    (easyroutes : Json.EasyRoutesClient) (twilio : TwilioSMSClient)
    (number text : string) (route fetched : Json.Route) (w : World) :
  number ≠ "" → text ≠ "" → (String.length text ≤ 160)%nat →
  Json.get_route_by_number easyroutes number = Return (Some route) →
  Json.get_route easyroutes (Json.route_id route) = Return fetched →
  Json.stops fetched ≠ Null →
  let targets :=
    filter Json.incomplete
      (match Json.stops fetched with Present l => l | _ => [] end) in
  let requests (stops : list Json.Stop) :=
    (fun p => mkSendRequest text (from_number twilio)
                (_format_phone_number p))
      <$> phone_numbers (Json.as_dict <$> stops) in
  (existsb Json.contact_is_null targets = false →
   ∃ response : Response,
     Json.send_sms (mkSession true) easyroutes twilio
       (mkRequestData (Some number) (Some text)) w
     = (Return response, w ++ requests targets) ∧
     status_code response = 200 ∧
     match body response with
     | ErrorBody _ => False
     | NoStopsBody _ results =>
         targets = [] ∧ results = mkResults 0 0 0 []
     | ResultsBody results =>
         targets ≠ [] ∧
         Forall2 entry_of (Json.as_dict <$> targets) (details results) ∧
         total_stops results = List.length targets
     end) ∧
  (existsb Json.contact_is_null targets = true →
   Json.send_sms (mkSession true) easyroutes twilio
     (mkRequestData (Some number) (Some text)) w
   = (Return (mkResponse
        (ErrorBody "'NoneType' object has no attribute 'get'") 500),
      w ++ requests (Json.reached targets))).
Proof.
  intros Hn Ht Hlen Hroute Hfetch Hstops targets requests.
  rewrite json_send_sms_paths. cbn [authenticated negb route_number message].
  destruct number as [|c number']; [done|].
  destruct text as [|c' text']; [done|].
  apply Nat.ltb_ge in Hlen.
  cbn [truthy negb orb default from_option id]. rewrite Hlen, Hroute, Hfetch.
  subst targets.
  destruct (Json.stops fetched) as [| |l] eqn:Hfield; [|done|].
  - split; [|done]. intros _.
    eexists. split; [by rewrite app_nil_r|]. by simpl.
  - destruct (filter Json.incomplete l) as [|stop rest] eqn:Htargets.
    + split; [|done]. intros _.
      eexists. split; [by rewrite app_nil_r|]. by simpl.
    + destruct (json_send_messages_loop_trace twilio (String c' text')
                  (stop :: rest) w) as (ds & Hds & Hrun).
      unfold Json.send_messages_to_stops. rewrite Hrun.
      split; intros Hnull; rewrite Hnull.
      * rewrite (json_reached_not_null _ Hnull) in Hds |- *.
        eexists. split; [reflexivity|]. by simpl.
      * reflexivity.
Qed.

Lemma send_sms_success_witness :
  Json.send_sms (mkSession true) json_easyroutes sample_twilio
    (mkRequestData (Some "RT-6") (Some "Running late")) []
  = (Return (mkResponse
       (ErrorBody "'NoneType' object has no attribute 'get'") 500),
     [] ++ [mkSendRequest "Running late" "+15550000000" "+15551230001"]).
Proof.
  destruct (send_sms_success json_easyroutes sample_twilio "RT-6"
              "Running late" null_contact_route null_contact_route []
              ltac:(discriminate) ltac:(discriminate) ltac:(simpl; lia)
              eq_refl eq_refl ltac:(discriminate))
    as (_ & Hnull).
  apply Hnull. reflexivity.
Defined.

(** ** The filter at its edges *)

(** X23: [get_incomplete_stops] sends nothing. It raises what [get_route]
    raises, and a TypeError when the route's stops key holds null; it
    raises in no other case. A route whose dict has no stops key has no
    incomplete stop. The stops it returns are never more than the stops of
    the route, and filtering them again changes nothing. *)
Theorem get_incomplete_stops_edges
    (self : Json.EasyRoutesClient) (route_id : string) (w : World) :
  snd (Json.get_incomplete_stops self route_id w) = w ∧
  (∀ e, fst (Json.get_incomplete_stops self route_id w) = Raise e
        ↔ Json.get_route self route_id = Raise e ∨
          (∃ route, Json.get_route self route_id = Return route ∧
                    Json.stops route = Null ∧
                    e = OtherException "'NoneType' object is not iterable")) ∧
  (∀ route, Json.get_route self route_id = Return route →
     Json.stops route = Missing →
     Json.get_incomplete_stops self route_id w = (Return [], w)) ∧
  (∀ stops : list Json.Stop,
     (List.length (Json.get_incomplete_stops_loop stops [])
      ≤ List.length stops)%nat ∧
     Json.get_incomplete_stops_loop (Json.get_incomplete_stops_loop stops [])
       []
     = Json.get_incomplete_stops_loop stops []).
Proof.
  unfold Json.get_incomplete_stops, mbind, M_bind, lift, mret, M_ret, raise.
  split_and!.
  - destruct (Json.get_route self route_id) as [route|e]; [|done].
    by destruct (Json.stops route).
  - intros e. destruct (Json.get_route self route_id) as [route|e'].
    + destruct (Json.stops route) as [| |l] eqn:Hs; simpl.
      * split; [done|]. intros [Hr | (r & Hr & Hnull & _)]; [done|].
        injection Hr as <-. congruence.
      * split; [intros [= <-]; right; by exists route|].
        by intros [Hr | (r & _ & _ & ->)].
      * split; [done|]. intros [Hr | (r & Hr & Hnull & _)]; [done|].
        injection Hr as <-. congruence.
    + simpl. split; [intros [= <-]; by left|].
      by intros [[= <-] | (r & Hr & _)].
  - intros route -> Hstops. by rewrite Hstops.
  - intros stops. rewrite !json_get_incomplete_stops_loop_filter. simpl.
    split.
    + apply sublist_length, sublist_filter.
    + induction stops as [|stop rest IH]; [done|].
      rewrite filter_cons.
      destruct (decide (Json.incomplete stop)) as [Hs|Hs]; [|exact IH].
      rewrite filter_cons, decide_True by done. by rewrite IH.
Qed.

Lemma get_incomplete_stops_edges_witness :
  Json.get_incomplete_stops
    (Json.mkEasyRoutesClient
       (fun _ => Return (Json.mkRoute "route-5" None Missing))
       (fun _ => Return None))
    "route-5" []
  = (Return [], []).
Proof.
  destruct (get_incomplete_stops_edges
              (Json.mkEasyRoutesClient
                 (fun _ => Return (Json.mkRoute "route-5" None Missing))
                 (fun _ => Return None))
              "route-5" []) as (_ & _ & Hmissing & _).
  by apply (Hmissing (Json.mkRoute "route-5" None Missing)).
Defined.
